(** * Bitbox parameter generator: a shallow embedding of
      [Python_helper_scripts/param_generator.py]

    The Python class [ParameterGenerator] renders text snippets (HTML markup,
    a default entry, JavaScript formatter and parser fragments) for one
    parameter description and records the parameter name in one of two
    membership lists that it owns.

    Layout of this file:
    - [Py]  : the Python values the script handles, [str]/[repr], dictionary
              access and the exceptions the script can raise;
    - [Gen] : the class itself, one definition per method, in a small
              state-and-exception monad over the generator object;
    - [Js]  : the JavaScript fragments the generator emits, as syntax trees
              with a printer, and their reading with exact arithmetic;
    - [Codec] : the tree of each formatter and parser template;
    - [Ieee]  : the evaluation of those trees on IEEE 754 doubles, used to
              state what the emitted formatter/parser pairs compute;
    - the properties. *)

From Stdlib Require Import String Ascii ZArith NArith QArith List Bool Lia.
From Stdlib Require Import Floats.SpecFloat.
Import ListNotations.
Local Open Scope Z_scope.
Local Open Scope string_scope.

(* ===================================================================== *)
(** * Text helpers *)
(* ===================================================================== *)

Module Text.

(** The double quote and the newline, as one-character strings. *)
Definition dq : string := String "034"%char EmptyString.
Definition nl : string := String "010"%char EmptyString.

(** [quoted s] is [s] between double quotes, as the attribute values of
    the markup are. *)
Definition quoted (s : string) : string := dq ++ s ++ dq.

(** Python's [sep.join(parts)]. *)
Definition join (sep : string) (parts : list string) : string :=
  String.concat sep parts.

(** [contains sub s]: [sub] occurs in [s] (Python's [sub in s]). *)
Fixpoint contains (sub s : string) : bool :=
  String.prefix sub s ||
  match s with
  | EmptyString => false
  | String _ rest => contains sub rest
  end.

(** The propositional reading of [contains]. *)
Definition occurs_in (sub s : string) : Prop :=
  exists pre post, s = pre ++ sub ++ post.

(** ** Decimal digits *)

Definition digit_char (d : N) : ascii := ascii_of_N (48 + d).

Definition is_digit (c : ascii) : bool :=
  let n := N_of_ascii c in ((48 <=? n) && (n <=? 57))%N.

Definition digit_val (c : ascii) : N := (N_of_ascii c - 48)%N.

(** The decimal digits of [n], most significant first, pushed in front of
    [acc]; [fuel] bounds the number of digits after the first. *)
Fixpoint dec_digits (fuel : nat) (n : N) (acc : string) : string :=
  let acc' := String (digit_char (n mod 10)) acc in
  match fuel with
  | O => acc'
  | S f => if (n / 10 =? 0)%N then acc' else dec_digits f (n / 10) acc'
  end.

(** A number has no more decimal digits than binary digits. *)
Definition string_of_N (n : N) : string :=
  dec_digits (N.to_nat (N.log2 n)) n "".

(** Decimal text of an integer, with a leading minus sign when negative:
    Python's [str(int)]. *)
Definition string_of_Z (z : Z) : string :=
  match z with
  | Z0 => "0"
  | Zpos p => string_of_N (Npos p)
  | Zneg p => "-" ++ string_of_N (Npos p)
  end.

(** Exactly [d] decimal digits: the [d] lowest digits of [n], zero padded. *)
Fixpoint low_digits (d : nat) (n : N) (acc : string) : string :=
  match d with
  | O => acc
  | S d' => low_digits d' (n / 10) (String (digit_char (n mod 10)) acc)
  end.

(** Two lowercase hexadecimal digits of a byte. *)
Definition hex_digit (d : N) : ascii :=
  if (d <? 10)%N then ascii_of_N (48 + d) else ascii_of_N (87 + d).

Definition hex2 (c : ascii) : string :=
  let n := N_of_ascii c in
  String (hex_digit (n / 16)) (String (hex_digit (n mod 16)) "").

End Text.

(* ===================================================================== *)
(** * Python values *)
(* ===================================================================== *)

Module Py.
Import Text.

(** The values a configuration dictionary can hold.  A float is carried by
    its [repr] text (the script only ever interpolates floats into text); a
    dictionary is an association list in insertion order with string keys;
    text is a string of bytes (UTF-8 for characters beyond ASCII). *)
#[warnings="-register-all"]
Inductive value : Type :=
| VNone
| VBool (b : bool)
| VInt (z : Z)
| VFloat (repr_text : string)
| VStr (s : string)
| VList (items : list value)
| VDict (entries : list (string * value)).

Definition dict : Type := list (string * value).

(** The exceptions the script can raise: a missing dictionary key, or an
    operation applied to a value of the wrong type. *)
Inductive error : Type :=
| KeyError (key : string)
| TypeError (msg : string).

Inductive result (A : Type) : Type :=
| Ok (a : A)
| Raise (e : error).
Arguments Ok {A} a.
Arguments Raise {A} e.

Definition rbind {A B} (r : result A) (k : A -> result B) : result B :=
  match r with
  | Ok a => k a
  | Raise e => Raise e
  end.

(** ** [repr] and [str] *)

(** [repr] of a string uses single quotes, or double quotes when the text
    has a single quote and no double quote; it escapes the quote in use,
    the backslash, the ASCII control characters and the characters
    U+0080 to U+00A0 and U+00AD (two bytes in UTF-8), which do not print.
    Other bytes beyond ASCII are kept: they stand for printable characters
    (the characters beyond U+00FF that do not print are not told apart). *)
Definition has_char (c : ascii) (s : string) : bool :=
  existsb (Ascii.eqb c) (list_ascii_of_string s).

Definition repr_quote (s : string) : ascii :=
  if has_char "'"%char s && negb (has_char "034"%char s)
  then "034"%char else "'"%char.

Definition repr_char (quote c : ascii) : string :=
  let one := String c "" in
  if Ascii.eqb c quote || Ascii.eqb c "\"%char then "\" ++ one
  else if Ascii.eqb c "009"%char then "\t"
  else if Ascii.eqb c "010"%char then "\n"
  else if Ascii.eqb c "013"%char then "\r"
  else if (N_of_ascii c <? 32)%N || Ascii.eqb c "127"%char then "\x" ++ hex2 c
  else one.

(** The UTF-8 bytes [c1 c2] of a character from U+0080 to U+00A0, or of
    U+00AD. *)
Definition latin1_unprintable (c1 c2 : ascii) : bool :=
  let n := N_of_ascii c2 in
  (Ascii.eqb c1 "194"%char
   && (((128 <=? n) && (n <=? 160)) || (n =? 173)))%N.

Fixpoint repr_chars (quote : ascii) (s : string) : string :=
  match s with
  | EmptyString => ""
  | String c rest =>
      match rest with
      | String c2 rest2 =>
          if latin1_unprintable c c2
          then "\x" ++ hex2 c2 ++ repr_chars quote rest2
          else repr_char quote c ++ repr_chars quote rest
      | EmptyString => repr_char quote c
      end
  end.

Definition repr_str (s : string) : string :=
  let quote := repr_quote s in
  String quote (repr_chars quote s ++ String quote "").

Fixpoint repr (v : value) : string :=
  match v with
  | VNone => "None"
  | VBool true => "True"
  | VBool false => "False"
  | VInt z => string_of_Z z
  | VFloat t => t
  | VStr s => repr_str s
  | VList items => "[" ++ join ", " (map repr items) ++ "]"
  | VDict entries =>
      "{" ++ join ", "
               (map (fun kv => repr_str (fst kv) ++ ": " ++ repr (snd kv))
                    entries) ++ "}"
  end.

(** [str(v)], which is what an f-string placeholder [{v}] interpolates. *)
Definition str (v : value) : string :=
  match v with
  | VStr s => s
  | _ => repr v
  end.

(** ** Dictionaries *)

Fixpoint lookup {A} (k : string) (d : list (string * A)) : option A :=
  match d with
  | [] => None
  | (k', v) :: rest => if String.eqb k k' then Some v else lookup k rest
  end.

(** [d[k]] *)
Definition getitem (d : dict) (k : string) : result value :=
  match lookup k d with
  | Some v => Ok v
  | None => Raise (KeyError k)
  end.

(** [d.get(k, default)] *)
Definition get (d : dict) (k : string) (default : value) : value :=
  match lookup k d with
  | Some v => v
  | None => default
  end.

(** [d[k] = v]: overwrite in place, or append a new entry. *)
Fixpoint setitem {A} (d : list (string * A)) (k : string) (v : A)
  : list (string * A) :=
  match d with
  | [] => [(k, v)]
  | (k', v') :: rest =>
      if String.eqb k k' then (k, v) :: rest else (k', v') :: setitem rest k v
  end.

(** Lists and dictionaries cannot be dictionary keys. *)
Definition hashable (v : value) : bool :=
  match v with
  | VList _ | VDict _ => false
  | _ => true
  end.

(** [v == 'text'] for a string literal on the right. *)
Definition eq_str (v : value) (text : string) : bool :=
  match v with
  | VStr s => String.eqb s text
  | _ => false
  end.

(** [for x in v]: the elements a [for] visits. *)
Definition iterate (v : value) : result (list value) :=
  match v with
  | VList items => Ok items
  | VDict entries => Ok (map (fun kv => VStr (fst kv)) entries)
  | VStr s => Ok (map (fun c => VStr (String c "")) (list_ascii_of_string s))
  | _ => Raise (TypeError "object is not iterable")
  end.

(** [v[k]] with a string subscript [k]. *)
Definition subscript (v : value) (k : string) : result value :=
  match v with
  | VDict entries => getitem entries k
  | VStr _ | VList _ => Raise (TypeError "indices must be integers")
  | _ => Raise (TypeError "object is not subscriptable")
  end.

(** [f(a, b, **v)] for a method [f(self, p1, p2, **kwargs)]: [v] has to be a
    mapping, and none of its keys may name a parameter already bound. *)
Definition unpack_kwargs (bound : list string) (v : value) : result dict :=
  match v with
  | VDict entries =>
      if existsb (fun kv => existsb (String.eqb (fst kv)) bound) entries
      then Raise (TypeError "got multiple values for argument")
      else Ok entries
  | _ => Raise (TypeError "argument after ** must be a mapping")
  end.

Fixpoint map_result {A B} (f : A -> result B) (l : list A) : result (list B) :=
  match l with
  | [] => Ok []
  | a :: rest =>
      rbind (f a) (fun b => rbind (map_result f rest) (fun bs => Ok (b :: bs)))
  end.

End Py.

(* ===================================================================== *)
(** * The generator class *)
(* ===================================================================== *)

Module Gen.
Import Text Py.

(** ** The object and its two lists

    [self.param_types] is a dictionary with the two keys ['slider'] and
    ['dropdown'], fixed by [__init__]; each holds one Python list, which
    [add_to_lists] grows in place.  The record has one field per key. *)
Record ParameterGenerator : Type := {
  slider : list value;
  dropdown : list value
}.

(** A Python list is an object: what [add_to_lists] hands out are the two
    list objects themselves, not copies.  A [list_ref] names one of them;
    its content is read from the generator at the time of reading. *)
Inductive list_ref : Type :=
| SliderList
| DropdownList.

Definition deref (g : ParameterGenerator) (r : list_ref) : list value :=
  match r with
  | SliderList => slider g
  | DropdownList => dropdown g
  end.

(** [ParameterGenerator()], the lists as [__init__] writes them. *)
Definition init : ParameterGenerator := {|
  slider := map VStr
    ["gaindb"; "pitch"; "panpos"; "dualfilcutoff"; "res"; "envattack";
     "envdecay"; "envsus"; "envrel"; "lforate"; "lfoamount"; "samstart";
     "samlen"; "loopstart"; "loopend"; "loopfadeamt"; "actslice";
     "grainsizeperc"; "grainscat"; "grainpanrnd"; "graindensity";
     "grainreadspeed"; "gainssrcwin"; "rootnote"; "fx1send"; "fx2send"];
  dropdown := map VStr
    ["cellmode"; "loopmodes"; "loopmode"; "samtrigtype"; "polymode";
     "lfowave"; "lfokeytrig"; "lfobeatsync"; "lforatebeatsync"; "midimode";
     "reverse"; "outputbus"; "chokegrp"; "slicestepmode"]
|}.

(** ** Methods run against the object: state plus exceptions *)

Definition M (A : Type) : Type :=
  ParameterGenerator -> result A * ParameterGenerator.

Definition ret {A} (a : A) : M A := fun g => (Ok a, g).

Definition bind {A B} (m : M A) (k : A -> M B) : M B :=
  fun g =>
    match m g with
    | (Ok a, g') => k a g'
    | (Raise e, g') => (Raise e, g')
    end.

(** A computation that does not touch the object. *)
Definition lift {A} (r : result A) : M A := fun g => (r, g).

Declare Scope gen_scope.
Delimit Scope gen_scope with gen.
Notation "x <- m ;; k" := (bind m (fun x => k))
  (at level 61, m at next level, right associativity) : gen_scope.
Notation "x <~ r ;; k" := (rbind r (fun x => k))
  (at level 61, r at next level, right associativity) : gen_scope.
Local Open Scope gen_scope.

(** ** Markup *)

(** [generate_slider_html]: the f-string, line by line. *)
Definition generate_slider_html
  (param_name label min_val max_val default_val : value) : string :=
  join nl
    [ "<div class=" ++ quoted "param" ++ ">";
      "    <label class=" ++ quoted "param-label" ++ ">" ++ str label
        ++ "</label>";
      "    <div class=" ++ quoted "param-control" ++ ">";
      "        <input type=" ++ quoted "range" ++ " class=" ++ quoted "slider"
        ++ " id=" ++ quoted (str param_name)
        ++ " min=" ++ quoted (str min_val)
        ++ " max=" ++ quoted (str max_val)
        ++ " value=" ++ quoted (str default_val) ++ ">";
      "        <span class=" ++ quoted "param-value"
        ++ " id=" ++ quoted (str param_name ++ "-val") ++ ">0.0%</span>";
      "    </div>";
      "</div>" ].

(** One [<option>] line of the list comprehension: [opt['value']] is read
    before [opt['label']]. *)
Definition option_html (opt : value) : result string :=
  v <~ subscript opt "value" ;;
  l <~ subscript opt "label" ;;
  Ok ("                <option value=" ++ quoted (str v) ++ ">" ++ str l
        ++ "</option>").

(** [generate_dropdown_html] *)
Definition generate_dropdown_html
  (param_name label options : value) : result string :=
  opts <~ iterate options ;;
  lines <~ map_result option_html opts ;;
  let options_html := join nl lines in
  Ok (join nl
    [ "<div class=" ++ quoted "param" ++ ">";
      "    <label class=" ++ quoted "param-label" ++ ">" ++ str label
        ++ "</label>";
      "    <select class=" ++ quoted "select"
        ++ " id=" ++ quoted (str param_name) ++ ">";
      options_html;
      "    </select>";
      "</div>" ]).

(** ** Formatter and parser snippets *)

(** The dictionary [formatters] of [generate_display_formatter]: every entry
    is built, in this order, before the lookup. *)
Definition formatters (param_name : value) (kwargs : dict) : dict :=
  let name := str param_name in
  let case := "case '" ++ name ++ "':" in
  let min_hz := str (get kwargs "min_hz" (VFloat "0.1")) in
  let max_hz := str (get kwargs "max_hz" (VInt 20)) in
  [ ("percentage", VStr (join nl
       [ case;
         "    text = (val / 10).toFixed(1) + '%';";
         "    break;" ]));
    ("db", VStr (join nl
       [ case;
         "    text = (val >= 0 ? '+' : '') + (val / 1000).toFixed(1) + ' dB';";
         "    break;" ]));
    ("semitones", VStr (join nl
       [ case;
         "    text = (val >= 0 ? '+' : '') + (val / 1000).toFixed(2) + ' st';";
         "    break;" ]));
    ("ms", VStr (join nl
       [ case;
         "    text = (val / " ++ str (get kwargs "divisor" (VInt 1))
           ++ ").toFixed(1) + ' ms';";
         "    break;" ]));
    ("hz", VStr (join nl
       [ case;
         "    const hz_" ++ name ++ " = " ++ min_hz ++ " + ((val / 1000) * ("
           ++ max_hz ++ " - " ++ min_hz ++ "));";
         "    text = hz_" ++ name ++ ".toFixed(2) + ' Hz';";
         "    break;" ]));
    ("custom", get kwargs "custom_code" (VStr "// Add custom formatting here"))
  ].

(** [table.get(key, table['percentage'])]: the key is hashed first. *)
Definition get_or_percentage (table : dict) (key : value) : result value :=
  if hashable key then
    percentage <~ getitem table "percentage" ;;
    Ok (match key with
        | VStr name => get table name percentage
        | _ => percentage
        end)
  else Raise (TypeError "unhashable type").

(** [generate_display_formatter(param_name, format_type, **kwargs)] *)
Definition generate_display_formatter
  (param_name format_type : value) (kwargs : dict) : result value :=
  get_or_percentage (formatters param_name kwargs) format_type.

(** The dictionary [parsers] of [generate_parser]. *)
Definition parsers (param_name : value) (kwargs : dict) : dict :=
  let min_hz := str (get kwargs "min_hz" (VFloat "0.1")) in
  let max_hz := str (get kwargs "max_hz" (VInt 20)) in
  [ ("percentage", VStr "return Math.round(val * 10);");
    ("db", VStr "return Math.round(val * 1000);");
    ("semitones", VStr "return Math.round(val * 1000);");
    ("ms", VStr ("return Math.round(val * "
                   ++ str (get kwargs "divisor" (VInt 1)) ++ ");"));
    ("hz", VStr (join nl
       [ "const hz = parseFloat(text);";
         "if (isNaN(hz) || hz < " ++ min_hz ++ " || hz > " ++ max_hz
           ++ ") return null;";
         "return Math.round(((hz - " ++ min_hz ++ ") / (" ++ max_hz ++ " - "
           ++ min_hz ++ ")) * 1000);" ]));
    ("custom", get kwargs "custom_code" (VStr "return Math.round(val);"))
  ].

(** [generate_parser(param_name, format_type, **kwargs)] *)
Definition generate_parser
  (param_name format_type : value) (kwargs : dict) : result value :=
  get_or_percentage (parsers param_name kwargs) format_type.

(** The parameters a [**kwargs] key must not repeat, for both methods. *)
Definition codec_method_params : list string :=
  ["self"; "param_name"; "format_type"].

(** ** Membership lists *)

(** The dictionary [add_to_lists] returns: four keys, each bound to one of
    the generator's own two list objects. *)
Definition membership : Type := list (string * list_ref).

Definition updated_lists_views : membership :=
  [ ("setupParameterListeners_sliders", SliderList);
    ("setupParameterListeners_dropdowns", DropdownList);
    ("loadParamsToModal_sliders", SliderList);
    ("loadParamsToModal_dropdowns", DropdownList) ].

(** [add_to_lists]: [append] on one of the two lists, then the four views. *)
Definition add_to_lists (param_name param_type : value) : M membership :=
  fun g =>
    let g' :=
      if eq_str param_type "slider"
      then {| slider := slider g ++ [param_name]; dropdown := dropdown g |}
      else {| slider := slider g; dropdown := dropdown g ++ [param_name] |} in
    (Ok updated_lists_views, g').

(** ** Default entry *)

(** [generate_default_param] *)
Definition generate_default_param (param_name default_value : value) : string :=
  str param_name ++ ": '" ++ str default_value ++ "'".

(** ** The entry point *)

(** A value of the result dictionary: text (or whatever the configuration
    supplied), or the membership dictionary. *)
Inductive artifact : Type :=
| Text (v : value)
| Lists (m : membership).

Definition bundle : Type := list (string * artifact).

(** [generate_full_parameter] *)
Definition generate_full_parameter (config : dict) : M bundle :=
  param_name <- lift (getitem config "name") ;;
  param_type <- lift (getitem config "type") ;;
  let result : bundle :=
    [ ("param_name", Text param_name);
      ("default_param",
       Text (VStr (generate_default_param param_name
                     (get config "default" (VStr "0"))))) ] in
  result <-
    (if eq_str param_type "slider" then
       label <- lift (getitem config "label") ;;
       min_val <- lift (getitem config "min") ;;
       max_val <- lift (getitem config "max") ;;
       let result :=
         setitem result "html"
           (Text (VStr (generate_slider_html param_name label min_val max_val
                          (get config "default" (VInt 0))))) in
       kwargs <- lift (unpack_kwargs codec_method_params
                         (get config "format_options" (VDict []))) ;;
       formatter <- lift (generate_display_formatter param_name
                            (get config "format" (VStr "percentage")) kwargs) ;;
       let result := setitem result "display_formatter" (Text formatter) in
       kwargs <- lift (unpack_kwargs codec_method_params
                         (get config "format_options" (VDict []))) ;;
       parser <- lift (generate_parser param_name
                         (get config "format" (VStr "percentage")) kwargs) ;;
       ret (setitem result "parser" (Text parser))
     else
       label <- lift (getitem config "label") ;;
       options <- lift (getitem config "options") ;;
       html <- lift (generate_dropdown_html param_name label options) ;;
       ret (setitem result "html" (Text (VStr html)))) ;;
  lists <- add_to_lists param_name param_type ;;
  ret (setitem result "updated_lists" (Lists lists)).

(** Compiling several configurations in a row on the same object; the
    outcome of every call is kept. *)
Fixpoint run_all (configs : list dict) (g : ParameterGenerator)
  : list (result bundle) * ParameterGenerator :=
  match configs with
  | [] => ([], g)
  | c :: rest =>
      let '(r, g1) := generate_full_parameter c g in
      let '(rs, g2) := run_all rest g1 in
      (r :: rs, g2)
  end.

(** ** The three configurations of [main] *)

Definition distortion_config : dict :=
  [ ("name", VStr "distortion"); ("type", VStr "slider");
    ("label", VStr "Distortion"); ("min", VInt 0); ("max", VInt 1000);
    ("default", VInt 0); ("format", VStr "percentage") ].

Definition filter_type_config : dict :=
  [ ("name", VStr "filtertype"); ("type", VStr "dropdown");
    ("label", VStr "Filter Type"); ("default", VStr "0");
    ("options", VList
       [ VDict [("value", VStr "0"); ("label", VStr "Low Pass")];
         VDict [("value", VStr "1"); ("label", VStr "High Pass")];
         VDict [("value", VStr "2"); ("label", VStr "Band Pass")];
         VDict [("value", VStr "3"); ("label", VStr "Notch")] ]) ].

Definition cutoff_config : dict :=
  [ ("name", VStr "filtercutoff"); ("type", VStr "slider");
    ("label", VStr "Filter Cutoff"); ("min", VInt 0); ("max", VInt 1000);
    ("default", VInt 500); ("format", VStr "hz");
    ("format_options", VDict [("min_hz", VInt 20); ("max_hz", VInt 20000)]) ].

End Gen.

(* ===================================================================== *)
(** * The emitted JavaScript *)
(* ===================================================================== *)

Module Js.
Import Text Py.

(** ** Syntax of the fragments the generator emits *)

Inductive binop : Type := Add | Sub | Mul | Div | Lt | Gt | Ge | Or.

Inductive builtin : Type := MathRound | ParseFloat | IsNaN.

Inductive expr : Type :=
| Var (x : string)
| Num (token : string)            (* a numeric literal, as written *)
| Str (s : string)                (* 's' *)
| Null
| Paren (e : expr)                (* (e) *)
| Bin (op : binop) (a b : expr)   (* a op b *)
| Cond (c a b : expr)             (* c ? a : b *)
| ToFixed (e : expr) (digits : nat)   (* e.toFixed(digits) *)
| Call (f : builtin) (e : expr).  (* f(e) *)

Inductive stmt : Type :=
| Case (label : string)           (* case 'label': *)
| Assign (x : string) (e : expr)  (* x = e; *)
| Const (x : string) (e : expr)   (* const x = e; *)
| Break                           (* break; *)
| IfReturn (c e : expr)           (* if (c) return e; *)
| Return (e : expr).              (* return e; *)

(** A fragment: its statements and the text between two of them (a newline,
    followed by the indentation the template gives the later lines). *)
Record fragment : Type := {
  separator : string;
  body : list stmt
}.

(** ** Printer *)

Definition print_binop (op : binop) : string :=
  match op with
  | Add => "+" | Sub => "-" | Mul => "*" | Div => "/"
  | Lt => "<" | Gt => ">" | Ge => ">=" | Or => "||"
  end.

Definition print_builtin (f : builtin) : string :=
  match f with
  | MathRound => "Math.round"
  | ParseFloat => "parseFloat"
  | IsNaN => "isNaN"
  end.

Fixpoint print_expr (e : expr) : string :=
  match e with
  | Var x => x
  | Num token => token
  | Str s => "'" ++ s ++ "'"
  | Null => "null"
  | Paren e => "(" ++ print_expr e ++ ")"
  | Bin op a b => print_expr a ++ " " ++ print_binop op ++ " " ++ print_expr b
  | Cond c a b => print_expr c ++ " ? " ++ print_expr a ++ " : " ++ print_expr b
  | ToFixed e digits =>
      print_expr e ++ ".toFixed(" ++ string_of_N (N.of_nat digits) ++ ")"
  | Call f e => print_builtin f ++ "(" ++ print_expr e ++ ")"
  end.

Definition print_stmt (s : stmt) : string :=
  match s with
  | Case label => "case '" ++ label ++ "':"
  | Assign x e => x ++ " = " ++ print_expr e ++ ";"
  | Const x e => "const " ++ x ++ " = " ++ print_expr e ++ ";"
  | Break => "break;"
  | IfReturn c e => "if (" ++ print_expr c ++ ") return " ++ print_expr e ++ ";"
  | Return e => "return " ++ print_expr e ++ ";"
  end.

Definition print (f : fragment) : string :=
  join (separator f) (map print_stmt (body f)).

(** ** Numbers, read exactly

    In this module a number is an exact rational, or NaN: the reading of
    the fragments without the rounding of IEEE doubles, and without the
    infinities (an operation that would produce one has no value).  It is
    used for one statement only, about raw values away from rounding ties,
    where it and the doubles write the same digits.  The module [Ieee]
    below evaluates the same trees on doubles. *)
Inductive num : Type :=
| NaN
| Fin (q : Q).

Inductive jsval : Type :=
| JNum (n : num)
| JStr (s : string)
| JBool (b : bool)
| JNull.

Definition of_Z (z : Z) : jsval := JNum (Fin (inject_Z z)).

Fixpoint pow10 (k : nat) : positive :=
  match k with
  | O => 1%positive
  | S k' => (10 * pow10 k')%positive
  end.

(** [Math.round]: the nearest integer, a tie going up. *)
Definition round_half_up (q : Q) : Z :=
  (2 * Qnum q + Zpos (Qden q)) / (2 * Zpos (Qden q)).

(** The integer [n] for which [n / 10^digits] is nearest to [|q|], a tie
    going to the larger [n]: the digits [toFixed] writes. *)
Definition fixed_digits (q : Q) (digits : nat) : N :=
  Z.to_N ((2 * Z.abs (Qnum q) * Zpos (pow10 digits) + Zpos (Qden q))
          / (2 * Zpos (Qden q))).

(** [toFixed] writes exponent notation from 10^21 on. *)
Definition below_1e21 (q : Q) : bool :=
  (Z.abs (Qnum q) <? 10 ^ 21 * Zpos (Qden q))%Z.

(** [q.toFixed(digits)] for [|q| < 10^21]: a minus sign when [q < 0], the
    integer part, and [digits] decimals after a point when [digits > 0]. *)
Definition to_fixed (q : Q) (digits : nat) : string :=
  let n := fixed_digits q digits in
  (if (Qnum q <? 0)%Z then "-" else "")
  ++ string_of_N (n / Npos (pow10 digits))
  ++ match digits with
     | O => ""
     | S _ => "." ++ low_digits digits n ""
     end.

(** ** Reading a number from text *)

(** Consumes the leading decimal digits of [s]: the number they add to
    [acc], how many they are on top of [count], and the rest of [s]. *)
Fixpoint take_digits (s : string) (acc : N) (count : nat)
  : N * nat * string :=
  match s with
  | String c rest =>
      if is_digit c
      then take_digits rest (10 * acc + digit_val c)%N (S count)
      else (acc, count, s)
  | EmptyString => (acc, count, s)
  end.

(** White space and line terminators, in UTF-8: the ASCII ones, U+00A0,
    U+1680, U+2000 to U+200A, U+2028, U+2029, U+202F, U+205F, U+3000 and
    U+FEFF. *)
Definition is_space (c : ascii) : bool :=
  let n := N_of_ascii c in ((n =? 32) || ((9 <=? n) && (n <=? 13)))%N.

Definition is_space2 (c1 c2 : ascii) : bool :=
  ((N_of_ascii c1 =? 194) && (N_of_ascii c2 =? 160))%N.

Definition is_space3 (c1 c2 c3 : ascii) : bool :=
  let n1 := N_of_ascii c1 in
  let n2 := N_of_ascii c2 in
  let n3 := N_of_ascii c3 in
  (((n1 =? 225) && (n2 =? 154) && (n3 =? 128))
   || ((n1 =? 226) && (n2 =? 128)
       && (((128 <=? n3) && (n3 <=? 138))
           || (n3 =? 168) || (n3 =? 169) || (n3 =? 175)))
   || ((n1 =? 226) && (n2 =? 129) && (n3 =? 159))
   || ((n1 =? 227) && (n2 =? 128) && (n3 =? 128))
   || ((n1 =? 239) && (n2 =? 187) && (n3 =? 191)))%N.

Fixpoint skip_spaces (s : string) : string :=
  match s with
  | String c rest =>
      if is_space c then skip_spaces rest
      else
        match rest with
        | String c2 rest2 =>
            if is_space2 c c2 then skip_spaces rest2
            else
              match rest2 with
              | String c3 rest3 =>
                  if is_space3 c c2 c3 then skip_spaces rest3 else s
              | EmptyString => s
              end
        | EmptyString => s
        end
  | EmptyString => s
  end.

(** An optional sign: [true] for a minus. *)
Definition take_sign (s : string) : bool * string :=
  match s with
  | String "-" rest => (true, rest)
  | String "+" rest => (false, rest)
  | _ => (false, s)
  end.

(** The exponent part [e±digits], when it is there in full: the factor is
    applied to [q]. *)
Definition apply_exponent (q : Q) (s : string) : Q * string :=
  match s with
  | String c rest =>
      if Ascii.eqb c "e" || Ascii.eqb c "E" then
        let '(neg, rest1) := take_sign rest in
        let '(e, k, rest2) := take_digits rest1 0%N O in
        match k with
        | O => (q, s)
        | S _ =>
            let f := pow10 (N.to_nat e) in
            (if neg then Qmake (Qnum q) (Qden q * f)
             else Qmake (Qnum q * Zpos f) (Qden q), rest2)
        end
      else (q, s)
  | EmptyString => (q, s)
  end.

(** The longest decimal literal [s] starts with, after an optional sign:
    digits, an optional point with more digits, an optional exponent; at
    least one digit is required.  [None]: there is no such prefix. *)
Definition take_decimal (s : string) : option (Q * string) :=
  let '(neg, s1) := take_sign s in
  let '(ip, ni, s2) := take_digits s1 0%N O in
  let '(m, nf, s3) :=
    match s2 with
    | String "." rest => take_digits rest ip O
    | _ => (ip, O, s2)
    end in
  match (ni + nf)%nat with
  | O => None
  | S _ =>
      let z := Z.of_N m in
      Some (apply_exponent (Qmake (if neg then - z else z) (pow10 nf)) s3)
  end.

(** [parseFloat(text)]: leading white space is skipped, the longest decimal
    literal is read and what follows it is ignored; NaN when there is none.
    [Infinity] has no value in this reading. *)
Definition parse_float (text : string) : option num :=
  let s := skip_spaces text in
  if String.prefix "Infinity" (snd (take_sign s)) then None
  else match take_decimal s with
       | Some (q, _) => Some (Fin q)
       | None => Some NaN
       end.

(** A leading zero followed by another digit: JavaScript does not read such
    a token as a decimal literal. *)
Definition leading_zero (token : string) : bool :=
  match snd (take_sign token) with
  | String "0" (String c _) => is_digit c
  | _ => false
  end.

(** The value of a numeric literal in the program text: the whole token has
    to be a decimal literal (a leading minus is the unary operator). *)
Definition literal_value (token : string) : option Q :=
  if leading_zero token then None
  else match take_decimal token with
       | Some (q, EmptyString) => Some q
       | _ => None
       end.

(** ** Evaluation *)

Definition env : Type := list (string * jsval).

Definition Qltb (a b : Q) : bool := negb (Qle_bool b a).

Definition arith (op : binop) (a b : Q) : option jsval :=
  match op with
  | Add => Some (JNum (Fin (a + b)))
  | Sub => Some (JNum (Fin (a - b)))
  | Mul => Some (JNum (Fin (a * b)))
  | Div => if Qeq_bool b 0 then None else Some (JNum (Fin (a / b)))
  | Lt => Some (JBool (Qltb a b))
  | Gt => Some (JBool (Qltb b a))
  | Ge => Some (JBool (Qle_bool b a))
  | Or => None
  end.

(** A binary operator on two values.  [+] joins two strings; on numbers,
    NaN makes arithmetic NaN and every comparison false.  Mixed operands do
    not occur in the emitted fragments and have no value here. *)
Definition eval_binop (op : binop) (a b : jsval) : option jsval :=
  match op, a, b with
  | Add, JStr x, JStr y => Some (JStr (x ++ y))
  | Or, _, _ => None
  | _, JNum (Fin x), JNum (Fin y) => arith op x y
  | (Add | Sub | Mul | Div), JNum _, JNum _ => Some (JNum NaN)
  | (Lt | Gt | Ge), JNum _, JNum _ => Some (JBool false)
  | _, _, _ => None
  end.

Definition eval_builtin (f : builtin) (a : jsval) : option jsval :=
  match f, a with
  | MathRound, JNum (Fin q) => Some (of_Z (round_half_up q))
  | MathRound, JNum NaN => Some (JNum NaN)
  | ParseFloat, JStr s => option_map JNum (parse_float s)
  | IsNaN, JNum NaN => Some (JBool true)
  | IsNaN, JNum (Fin _) => Some (JBool false)
  | _, _ => None
  end.

Fixpoint eval (rho : env) (e : expr) : option jsval :=
  match e with
  | Var x => lookup x rho
  | Num token => option_map (fun q => JNum (Fin q)) (literal_value token)
  | Str s => Some (JStr s)
  | Null => Some JNull
  | Paren e => eval rho e
  | Bin Or a b =>
      match eval rho a with
      | Some (JBool true) => Some (JBool true)
      | Some (JBool false) =>
          match eval rho b with
          | Some (JBool y) => Some (JBool y)
          | _ => None
          end
      | _ => None
      end
  | Bin op a b =>
      match eval rho a, eval rho b with
      | Some x, Some y => eval_binop op x y
      | _, _ => None
      end
  | Cond c a b =>
      match eval rho c with
      | Some (JBool true) => eval rho a
      | Some (JBool false) => eval rho b
      | _ => None
      end
  | ToFixed e digits =>
      match eval rho e with
      | Some (JNum (Fin q)) =>
          if below_1e21 q then Some (JStr (to_fixed q digits)) else None
      | Some (JNum NaN) => Some (JStr "NaN")
      | _ => None
      end
  | Call f e =>
      match eval rho e with
      | Some a => eval_builtin f a
      | None => None
      end
  end.

(** How a fragment ends: at a [return], at the [break], or by running off
    its last statement. *)
Inductive outcome : Type :=
| Returned (v : jsval)
| Broke (rho : env)
| Fell (rho : env).

Fixpoint exec (p : list stmt) (rho : env) : option outcome :=
  match p with
  | [] => Some (Fell rho)
  | Case _ :: rest => exec rest rho
  | (Assign x e | Const x e) :: rest =>
      match eval rho e with
      | Some v => exec rest (setitem rho x v)
      | None => None
      end
  | Break :: _ => Some (Broke rho)
  | IfReturn c e :: rest =>
      match eval rho c with
      | Some (JBool true) => option_map Returned (eval rho e)
      | Some (JBool false) => exec rest rho
      | _ => None
      end
  | Return e :: _ => option_map Returned (eval rho e)
  end.

End Js.

(* ===================================================================== *)
(** * The codec pairs, as programs *)
(* ===================================================================== *)

Module Codec.
Import Text Py Gen Js.

(** The five built-in codec names (the sixth key, ['custom'], passes the
    caller's text through and has no program of its own). *)
Inductive codec : Type := Percentage | Db | Semitones | Ms | Hz.

Definition codec_name (c : codec) : string :=
  match c with
  | Percentage => "percentage"
  | Db => "db"
  | Semitones => "semitones"
  | Ms => "ms"
  | Hz => "hz"
  end.

Definition all_codecs : list codec := [Percentage; Db; Semitones; Ms; Hz].

(** The keys of the [formatters] and [parsers] dictionaries. *)
Definition registered : list string :=
  map codec_name all_codecs ++ ["custom"].

Definition val : expr := Var "val".

(** [(val >= 0 ? '+' : '')] *)
Definition sign_prefix : expr :=
  Paren (Cond (Bin Ge val (Num "0")) (Str "+") (Str "")).

(** [(val / d).toFixed(digits) + 'unit'] *)
Definition scaled (d : string) (digits : nat) (unit : string) : expr :=
  Bin Add (ToFixed (Paren (Bin Div val (Num d))) digits) (Str unit).

(** The syntax tree of each formatter template, with the texts the f-string
    interpolates in the places where it interpolates them. *)
Definition formatter_fragment (c : codec) (param_name : value) (kwargs : dict)
  : fragment :=
  let name := str param_name in
  let min_hz := str (get kwargs "min_hz" (VFloat "0.1")) in
  let max_hz := str (get kwargs "max_hz" (VInt 20)) in
  {| separator := nl ++ "    ";
     body :=
       match c with
       | Percentage =>
           [ Case name; Assign "text" (scaled "10" 1 "%"); Break ]
       | Db =>
           [ Case name;
             Assign "text"
               (Bin Add (Bin Add sign_prefix
                           (ToFixed (Paren (Bin Div val (Num "1000"))) 1))
                        (Str " dB"));
             Break ]
       | Semitones =>
           [ Case name;
             Assign "text"
               (Bin Add (Bin Add sign_prefix
                           (ToFixed (Paren (Bin Div val (Num "1000"))) 2))
                        (Str " st"));
             Break ]
       | Ms =>
           [ Case name;
             Assign "text"
               (scaled (str (get kwargs "divisor" (VInt 1))) 1 " ms");
             Break ]
       | Hz =>
           [ Case name;
             Const ("hz_" ++ name)
               (Bin Add (Num min_hz)
                  (Paren (Bin Mul (Paren (Bin Div val (Num "1000")))
                            (Paren (Bin Sub (Num max_hz) (Num min_hz))))));
             Assign "text"
               (Bin Add (ToFixed (Var ("hz_" ++ name)) 2) (Str " Hz"));
             Break ]
       end |}.

(** [return Math.round(val * m);] *)
Definition round_times (m : string) : stmt :=
  Return (Call MathRound (Bin Mul val (Num m))).

(** The syntax tree of each parser template. *)
Definition parser_fragment (c : codec) (param_name : value) (kwargs : dict)
  : fragment :=
  let min_hz := str (get kwargs "min_hz" (VFloat "0.1")) in
  let max_hz := str (get kwargs "max_hz" (VInt 20)) in
  {| separator := nl;
     body :=
       match c with
       | Percentage => [ round_times "10" ]
       | Db | Semitones => [ round_times "1000" ]
       | Ms => [ round_times (str (get kwargs "divisor" (VInt 1))) ]
       | Hz =>
           [ Const "hz" (Call ParseFloat (Var "text"));
             IfReturn
               (Bin Or (Bin Or (Call IsNaN (Var "hz"))
                          (Bin Lt (Var "hz") (Num min_hz)))
                       (Bin Gt (Var "hz") (Num max_hz)))
               Null;
             Return
               (Call MathRound
                  (Bin Mul
                     (Paren (Bin Div
                               (Paren (Bin Sub (Var "hz") (Num min_hz)))
                               (Paren (Bin Sub (Num max_hz) (Num min_hz)))))
                     (Num "1000"))) ]
       end |}.

(** ** Running a pair *)

(** The display text the formatter fragment leaves in [text] for the raw
    value [v]: it runs with [val] bound to [v] and ends at its [break]. *)
Definition forwardOf (f : fragment) (v : Z) : option string :=
  match exec (body f) [("val", of_Z v)] with
  | Some (Broke rho) =>
      match lookup "text" rho with
      | Some (JStr s) => Some s
      | _ => None
      end
  | _ => None
  end.

(** The integers a JavaScript number holds exactly. *)
Definition safe_integer (v : Z) : Prop := Z.abs v < 2 ^ 53.

End Codec.

(* ===================================================================== *)
(** * The emitted JavaScript on IEEE 754 doubles *)
(* ===================================================================== *)

Module Ieee.
Import Text Py Js Codec.
Local Open Scope Z_scope.

(** ** Numbers

    A JavaScript number is an IEEE 754 binary64 value: a signed zero, a
    signed infinity, NaN, or [(-1)^s * m * 2^e] with a 53-bit mantissa.
    The operations round to nearest, ties to even. *)
Definition double : Type := spec_float.

Definition prec : Z := 53.
Definition emax : Z := 1024.

Definition dadd : double -> double -> double := SFadd prec emax.
Definition dsub : double -> double -> double := SFsub prec emax.
Definition dmul : double -> double -> double := SFmul prec emax.
Definition ddiv : double -> double -> double := SFdiv prec emax.

(** The double nearest to an integer. *)
Definition of_integer (z : Z) : double := binary_normalize prec emax z 0 false.

(** The double nearest to [m * 10^e10], with the sign [neg]: the value of a
    decimal literal.  A negative power of ten divides, and the quotient of
    the two integers is rounded once. *)
Definition of_decimal (neg : bool) (m : N) (e10 : Z) : double :=
  match m with
  | N0 => S754_zero neg
  | Npos p =>
      match e10 with
      | Zneg k => ddiv (S754_finite neg p 0) (S754_finite false (10 ^ k) 0)
      | _ => binary_round prec emax neg (p * Z.to_pos (10 ^ e10)) 0
      end
  end.

(** The integer a double is, when it is one. *)
Definition integer_of (x : double) : option Z :=
  match x with
  | S754_zero _ => Some 0
  | S754_finite s m e =>
      let z := if s then Zneg m else Zpos m in
      if 0 <=? e then Some (z * 2 ^ e)
      else if Zpos m mod 2 ^ (- e) =? 0 then Some (z / 2 ^ (- e))
      else None
  | _ => None
  end.

(** [floor(|x| * k + 1/2)] for a finite [|x| = m * 2^e], computed exactly. *)
Definition scaled_half_up (m : positive) (e : Z) (k : Z) : Z :=
  if 0 <=? e then Zpos m * 2 ^ e * k
  else (2 * Zpos m * k + 2 ^ (- e)) / 2 ^ (1 - e).

(** [Math.round(x)]: [floor(x + 1/2)] computed exactly; a result of zero
    keeps the sign of [x]. *)
Definition math_round (x : double) : double :=
  match x with
  | S754_finite s m e =>
      if 0 <=? e then x
      else
        let z := if s then Zneg m else Zpos m in
        let r := (2 * z + 2 ^ (- e)) / 2 ^ (1 - e) in
        if r =? 0 then S754_zero s else of_integer r
  | _ => x
  end.

(** [|x| >= 10^21], from where [toFixed] writes exponent notation. *)
Definition at_least_1e21 (m : positive) (e : Z) : bool :=
  if 0 <=? e then 10 ^ 21 <=? Zpos m * 2 ^ e
  else 10 ^ 21 * 2 ^ (- e) <=? Zpos m.

(** The digits [toFixed] writes for the integer [n] of [n / 10^digits]. *)
Definition fixed_text (neg : bool) (n : N) (digits : nat) : string :=
  (if neg then "-" else "")
  ++ string_of_N (n / Npos (pow10 digits))
  ++ match digits with
     | O => ""
     | S _ => "." ++ low_digits digits n ""
     end.

(** [x.toFixed(digits)].  The digits are those of the integer [n] for which
    [n / 10^digits] is nearest to the exact value of [|x|], the larger one
    on a tie; the sign is written when [x < 0].  Exponent notation, from
    10^21 on, has no value here. *)
Definition to_fixed64 (x : double) (digits : nat) : option string :=
  match x with
  | S754_nan => Some "NaN"
  | S754_infinity s => Some (if s then "-Infinity" else "Infinity")
  | S754_zero _ => Some (fixed_text false 0 digits)
  | S754_finite s m e =>
      if at_least_1e21 m e then None
      else Some (fixed_text s
                   (Z.to_N (scaled_half_up m e (Zpos (pow10 digits)))) digits)
  end.

(** ** Reading a number from text *)

(** The exponent part, [e] with an optional sign and digits, when it is
    there in full. *)
Definition take_exponent (s : string) : Z * string :=
  match s with
  | String c rest =>
      if Ascii.eqb c "e" || Ascii.eqb c "E" then
        let '(neg, rest1) := take_sign rest in
        let '(e, k, rest2) := take_digits rest1 0%N O in
        match k with
        | O => (0, s)
        | S _ => (if neg then - Z.of_N e else Z.of_N e, rest2)
        end
      else (0, s)
  | EmptyString => (0, s)
  end.

(** The longest unsigned decimal literal [s] starts with: digits, an
    optional point with more digits, an optional exponent, with at least
    one digit before the exponent.  It is returned as a mantissa and a
    power of ten, with the rest of [s]. *)
Definition take_unsigned (s : string) : option (N * Z * string) :=
  let '(ip, ni, s2) := take_digits s 0%N O in
  let '(m, nf, s3) :=
    match s2 with
    | String "." rest => take_digits rest ip O
    | _ => (ip, O, s2)
    end in
  match (ni + nf)%nat with
  | O => None
  | S _ =>
      let '(e, s4) := take_exponent s3 in
      Some (m, e - Z.of_nat nf, s4)
  end.

(** [parseFloat(text)]: white space is skipped, then a sign, then either
    [Infinity] or the longest decimal literal; what follows is ignored.
    NaN when there is neither. *)
Definition parse_float64 (text : string) : double :=
  let '(neg, s) := take_sign (skip_spaces text) in
  if String.prefix "Infinity" s then S754_infinity neg
  else match take_unsigned s with
       | Some (m, e10, _) => of_decimal neg m e10
       | None => S754_nan
       end.

(** The value of a numeric token of the program text: an unsigned decimal
    literal that is the whole token, or such a literal after a minus sign
    (the unary minus).  A leading zero followed by a digit is not decimal. *)
Definition literal64 (token : string) : option double :=
  let '(neg, s) :=
    match token with
    | String "-" rest => (true, rest)
    | _ => (false, token)
    end in
  match s with
  | String "0" (String c _) => if is_digit c then None else
      match take_unsigned s with
      | Some (m, e10, EmptyString) => Some (of_decimal neg m e10)
      | _ => None
      end
  | _ =>
      match take_unsigned s with
      | Some (m, e10, EmptyString) => Some (of_decimal neg m e10)
      | _ => None
      end
  end.

(** ** Text that reads back as the tree *)

Definition is_name_char (c : ascii) : bool :=
  let n := N_of_ascii c in
  (((48 <=? n) && (n <=? 57)) || ((65 <=? n) && (n <=? 90))
   || ((97 <=? n) && (n <=? 122)) || (n =? 95))%N.

(** Letters, digits and underscores only. *)
Fixpoint plain_name (s : string) : bool :=
  match s with
  | EmptyString => true
  | String c rest => is_name_char c && plain_name rest
  end.

(** A variable name: not empty, plain, not starting with a digit. *)
Definition identifier (s : string) : bool :=
  match s with
  | EmptyString => false
  | String c _ => negb (is_digit c) && plain_name s
  end.

(** A string that can stand between single quotes as it is. *)
Fixpoint quotable (s : string) : bool :=
  match s with
  | EmptyString => true
  | String c rest =>
      negb (Ascii.eqb c "'" || Ascii.eqb c "\" || Ascii.eqb c "010"
            || Ascii.eqb c "013")
      && quotable rest
  end.

(** The printed text of the tree is JavaScript that reads back as the
    tree: names are identifiers, numeric tokens are literals, quoted text
    needs no escape.  The generator splices configuration text into its
    templates; a tree that fails this test stands for no program. *)
Fixpoint well_formed_expr (e : expr) : bool :=
  match e with
  | Var x => identifier x
  | Num token => match literal64 token with Some _ => true | None => false end
  | Str s => quotable s
  | Null => true
  | Paren e => well_formed_expr e
  | Bin _ a b => well_formed_expr a && well_formed_expr b
  | Cond c a b =>
      well_formed_expr c && well_formed_expr a && well_formed_expr b
  | ToFixed e digits => well_formed_expr e && (digits <=? 100)%nat
  | Call _ e => well_formed_expr e
  end.

Definition well_formed_stmt (s : stmt) : bool :=
  match s with
  | Case label => plain_name label
  | Assign x e | Const x e => identifier x && well_formed_expr e
  | Break => true
  | IfReturn c e => well_formed_expr c && well_formed_expr e
  | Return e => well_formed_expr e
  end.

Definition well_formed (f : fragment) : bool :=
  forallb well_formed_stmt (body f).

(** ** Evaluation *)

Inductive jsval64 : Type :=
| DNum (x : double)
| DStr (s : string)
| DBool (b : bool)
| DNull.

Definition env64 : Type := list (string * jsval64).

Definition is_nan (x : double) : bool :=
  match x with
  | S754_nan => true
  | _ => false
  end.

(** A binary operator on two values: [+] joins two strings or adds two
    numbers, the others take two numbers.  Mixed operands do not occur in
    the emitted fragments and have no value here. *)
Definition eval_binop64 (op : binop) (a b : jsval64) : option jsval64 :=
  match op, a, b with
  | Add, DStr x, DStr y => Some (DStr (x ++ y))
  | Add, DNum x, DNum y => Some (DNum (dadd x y))
  | Sub, DNum x, DNum y => Some (DNum (dsub x y))
  | Mul, DNum x, DNum y => Some (DNum (dmul x y))
  | Div, DNum x, DNum y => Some (DNum (ddiv x y))
  | Lt, DNum x, DNum y => Some (DBool (SFltb x y))
  | Gt, DNum x, DNum y => Some (DBool (SFltb y x))
  | Ge, DNum x, DNum y => Some (DBool (SFleb y x))
  | _, _, _ => None
  end.

Definition eval_builtin64 (f : builtin) (a : jsval64) : option jsval64 :=
  match f, a with
  | MathRound, DNum x => Some (DNum (math_round x))
  | ParseFloat, DStr s => Some (DNum (parse_float64 s))
  | IsNaN, DNum x => Some (DBool (is_nan x))
  | _, _ => None
  end.

Fixpoint eval64 (rho : env64) (e : expr) : option jsval64 :=
  match e with
  | Var x => lookup x rho
  | Num token => option_map DNum (literal64 token)
  | Str s => Some (DStr s)
  | Null => Some DNull
  | Paren e => eval64 rho e
  | Bin Or a b =>
      match eval64 rho a with
      | Some (DBool true) => Some (DBool true)
      | Some (DBool false) =>
          match eval64 rho b with
          | Some (DBool y) => Some (DBool y)
          | _ => None
          end
      | _ => None
      end
  | Bin op a b =>
      match eval64 rho a, eval64 rho b with
      | Some x, Some y => eval_binop64 op x y
      | _, _ => None
      end
  | Cond c a b =>
      match eval64 rho c with
      | Some (DBool true) => eval64 rho a
      | Some (DBool false) => eval64 rho b
      | _ => None
      end
  | ToFixed e digits =>
      match eval64 rho e with
      | Some (DNum x) => option_map DStr (to_fixed64 x digits)
      | _ => None
      end
  | Call f e =>
      match eval64 rho e with
      | Some a => eval_builtin64 f a
      | None => None
      end
  end.

Inductive outcome64 : Type :=
| Returned64 (v : jsval64)
| Broke64 (rho : env64)
| Fell64 (rho : env64).

Fixpoint exec64 (p : list stmt) (rho : env64) : option outcome64 :=
  match p with
  | [] => Some (Fell64 rho)
  | Case _ :: rest => exec64 rest rho
  | (Assign x e | Const x e) :: rest =>
      match eval64 rho e with
      | Some v => exec64 rest (setitem rho x v)
      | None => None
      end
  | Break :: _ => Some (Broke64 rho)
  | IfReturn c e :: rest =>
      match eval64 rho c with
      | Some (DBool true) => option_map Returned64 (eval64 rho e)
      | Some (DBool false) => exec64 rest rho
      | _ => None
      end
  | Return e :: _ => option_map Returned64 (eval64 rho e)
  end.

(** ** Running a codec pair *)

(** The display text the formatter fragment leaves in [text] for the raw
    value [v]. *)
Definition forward64 (f : fragment) (v : Z) : option string :=
  if well_formed f then
    match exec64 (body f) [("val", DNum (of_integer v))] with
    | Some (Broke64 rho) =>
        match lookup "text" rho with
        | Some (DStr s) => Some s
        | _ => None
        end
    | _ => None
    end
  else None.

(** Modelled from the spec: the binding of the parser fragment's free
    variables.  The fragment is pasted into the host's [parseDisplayValue],
    which is not part of the script; [text] is the display text and [val]
    the number read from it, the way the [hz] fragment reads its own
    ([parseFloat(text)]). *)
Definition host_env64 (text : string) : env64 :=
  [("text", DStr text); ("val", DNum (parse_float64 text))].

(** What the parser fragment returns for a display text. *)
Definition inverse64 (p : fragment) (text : string) : option jsval64 :=
  if well_formed p then
    match exec64 (body p) (host_env64 text) with
    | Some (Returned64 v) => Some v
    | _ => None
    end
  else None.

(** Formatter, then parser, for one codec and one parameter. *)
Definition roundtrip64 (c : codec) (param_name : value) (kwargs : dict)
  (v : Z) : option jsval64 :=
  match forward64 (formatter_fragment c param_name kwargs) v with
  | Some text => inverse64 (parser_fragment c param_name kwargs) text
  | None => None
  end.

(** The integer a returned value is. *)
Definition returned_integer (r : option jsval64) : option Z :=
  match r with
  | Some (DNum x) => integer_of x
  | _ => None
  end.

(** The integers from [lo] to [hi]. *)
Fixpoint count_up (n : nat) (from : Z) : list Z :=
  match n with
  | O => []
  | S n' => from :: count_up n' (from + 1)
  end.

Definition between (lo hi : Z) : list Z :=
  count_up (Z.to_nat (hi - lo + 1)) lo.

(** [check] holds of every integer from [lo] to [hi]. *)
Definition holds_between (lo hi : Z) (check : Z -> bool) : bool :=
  forallb check (between lo hi).

(** The round trip at [v] returns [v]. *)
Definition exact_at (c : codec) (kwargs : dict) (v : Z) : bool :=
  match returned_integer (roundtrip64 c (VStr "") kwargs v) with
  | Some w => w =? v
  | None => false
  end.


End Ieee.


(* ===================================================================== *)
(** * What the specification asks of the markup *)
(* ===================================================================== *)

Module SpecSide.
Import Text.

(** Written from the specification, not from the script: text escaped for
    the markup context, the five reserved characters replaced by their
    entities. *)
Definition spec_escape_char (c : ascii) : string :=
  if Ascii.eqb c "&" then "&amp;"
  else if Ascii.eqb c "<" then "&lt;"
  else if Ascii.eqb c ">" then "&gt;"
  else if Ascii.eqb c "034" then "&quot;"
  else if Ascii.eqb c "'" then "&#x27;"
  else String c "".

Fixpoint spec_escape_markup (s : string) : string :=
  match s with
  | EmptyString => ""
  | String c rest => spec_escape_char c ++ spec_escape_markup rest
  end.

End SpecSide.

Import Text Py Gen Js Codec Ieee SpecSide.
Local Open Scope gen_scope.

(** The elements of the markup the properties below speak about. *)
Definition label_element (label : value) : string :=
  "<label class=" ++ quoted "param-label" ++ ">" ++ str label ++ "</label>".

Definition option_element (v l : value) : string :=
  "<option value=" ++ quoted (str v) ++ ">" ++ str l ++ "</option>".

Definition value_span (param_name : value) (shown : string) : string :=
  "<span class=" ++ quoted "param-value" ++ " id="
    ++ quoted (str param_name ++ "-val") ++ ">" ++ shown ++ "</span>".

(** The list a name of the given type is appended to. *)
Definition list_of_type (param_type : value) : list_ref :=
  if eq_str param_type "slider" then SliderList else DropdownList.

Definition other_list (r : list_ref) : list_ref :=
  match r with
  | SliderList => DropdownList
  | DropdownList => SliderList
  end.

(** One view of a membership dictionary, read against the generator. *)
Definition view (g : ParameterGenerator) (m : membership) (key : string)
  : option (list value) :=
  option_map (deref g) (lookup key m).

(** Example configurations used to exercise the properties. *)

(** The name of [distortion_config], described as a dropdown. *)
Definition distortion_as_dropdown : dict :=
  [ ("name", VStr "distortion"); ("type", VStr "dropdown");
    ("label", VStr "Distortion");
    ("options", VList [ VDict [("value", VStr "0"); ("label", VStr "Off")] ]) ].

(** A slider without its ['label']. *)
Definition slider_without_label : dict :=
  [ ("name", VStr "drive"); ("type", VStr "slider");
    ("min", VInt 0); ("max", VInt 1000) ].

(** A type that is neither ['slider'] nor ['dropdown']. *)
Definition continuous_config : dict :=
  [ ("name", VStr "drive"); ("type", VStr "continuous");
    ("label", VStr "Drive"); ("min", VInt 0); ("max", VInt 1000);
    ("options", VList [ VDict [("value", VStr "0"); ("label", VStr "Off")] ]) ].

(** A label and an option with reserved characters. *)
Definition markup_label : value := VStr "<b>Cut & Boost</b>".
Definition markup_options : value :=
  VList [ VDict [("value", VStr "a<b"); ("label", VStr "R&B")] ].

(** ** Notions for the further properties *)

(** One rendered option line, with the indentation of the template. *)
Definition option_line (v l : value) : string :=
  "                " ++ option_element v l.

(** The dropdown markup around already rendered option lines. *)
Definition dropdown_markup (param_name label : value) (lines : list string)
  : string :=
  join nl
    [ "<div class=" ++ quoted "param" ++ ">";
      "    " ++ label_element label;
      "    <select class=" ++ quoted "select"
        ++ " id=" ++ quoted (str param_name) ++ ">";
      join nl lines;
      "    </select>";
      "</div>" ].

(** The keys the entry point subscripts, in the order it reads them. *)
Definition required_keys (config : dict) : list string :=
  (["name"; "type"; "label"]
   ++ match lookup "type" config with
      | Some ty => if eq_str ty "slider" then ["min"; "max"] else ["options"]
      | None => []
      end)%list.

Definition same_list (a b : list_ref) : bool :=
  match a, b with
  | SliderList, SliderList | DropdownList, DropdownList => true
  | _, _ => false
  end.

(** The name a configuration adds to the list [kind]: its ['name'] when the
    call returns and its type goes to that list, nothing otherwise.  Whether
    a call returns does not depend on the generator it runs on. *)
Definition registered_name (kind : list_ref) (config : dict) : list value :=
  match fst (generate_full_parameter config init),
        getitem config "name", getitem config "type" with
  | Ok _, Ok name, Ok ty =>
      if same_list (list_of_type ty) kind then [name] else []
  | _, _, _ => []
  end.

(** The formatter text of the ['percentage'] codec. *)
Definition percentage_case (param_name : value) : string :=
  join nl
    [ "case '" ++ str param_name ++ "':";
      "    text = (val / 10).toFixed(1) + '%';";
      "    break;" ].

(* ===================================================================== *)
(** * Strings: concatenation and occurrence *)
(* ===================================================================== *)

Section StringFacts.

Lemma append_assoc (a b c : string) : (a ++ b) ++ c = a ++ (b ++ c).
Proof.
  induction a as [| x a IH]; simpl; [reflexivity | now rewrite IH].
Qed.

Lemma append_nil_r (a : string) : a ++ "" = a.
Proof.
  induction a as [| x a IH]; simpl; [reflexivity | now rewrite IH].
Qed.

Lemma occurs_in_refl (s : string) : occurs_in s s.
Proof. exists "", "". simpl. now rewrite append_nil_r. Qed.

Lemma occurs_in_app_r (pre s sub : string) :
  occurs_in sub s -> occurs_in sub (pre ++ s).
Proof.
  intros (a & b & ->). exists (pre ++ a), b. now rewrite append_assoc.
Qed.

Lemma occurs_in_app_l (s post sub : string) :
  occurs_in sub s -> occurs_in sub (s ++ post).
Proof.
  intros (a & b & ->). exists a, (b ++ post). now rewrite !append_assoc.
Qed.

Lemma occurs_in_trans (a b c : string) :
  occurs_in a b -> occurs_in b c -> occurs_in a c.
Proof.
  intros (p1 & q1 & ->) (p2 & q2 & ->).
  exists (p2 ++ p1), (q1 ++ q2). now rewrite !append_assoc.
Qed.

Lemma occurs_in_join (sep p : string) (parts : list string) :
  In p parts -> occurs_in p (join sep parts).
Proof.
  unfold join. induction parts as [| x rest IH]; intros Hin; [easy |].
  destruct Hin as [-> | Hin].
  - destruct rest; simpl; [apply occurs_in_refl |].
    apply occurs_in_app_l, occurs_in_refl.
  - destruct rest as [| y rest']; [easy |].
    change (String.concat sep (x :: y :: rest'))
      with (x ++ sep ++ String.concat sep (y :: rest')).
    now apply occurs_in_app_r, occurs_in_app_r, IH.
Qed.

Lemma prefix_spec (a b : string) :
  String.prefix a b = true <-> exists c, b = a ++ c.
Proof.
  revert b. induction a as [| x a IH]; intros b.
  - destruct b; simpl; split; eauto.
  - destruct b as [| y b]; simpl.
    + split; [discriminate | now intros (c & Hc)].
    + destruct (ascii_dec x y) as [-> | Hne].
      * rewrite IH. split; intros (c & Hc); exists c; congruence.
      * split; [discriminate | intros (c & Hc); congruence].
Qed.

Lemma contains_occurs (sub s : string) :
  contains sub s = true <-> occurs_in sub s.
Proof.
  induction s as [| x s IH].
  - cbn -[String.prefix]. rewrite orb_false_r, prefix_spec. split.
    + intros (c & Hc). now exists "", c.
    + intros (a & b & Hab). destruct a; [now exists b | discriminate].
  - cbn -[String.prefix]. rewrite orb_true_iff, prefix_spec, IH. split.
    + intros [(c & Hc) | (a & b & Hab)].
      * now exists "", c.
      * exists (String x a), b. simpl. now rewrite Hab.
    + intros (a & b & Hab). destruct a as [| y a].
      * left. now exists b.
      * right. exists a, b. simpl in Hab. congruence.
Qed.

End StringFacts.

(* ===================================================================== *)
(** * The entry point, step by step *)
(* ===================================================================== *)

(** Case analysis on every lookup and call the entry point makes. *)
Ltac split_calls :=
  repeat match goal with
         | |- context [match ?x with _ => _ end] =>
             lazymatch x with
             | context [match _ with _ => _ end] => fail
             | _ => destruct x eqn:?
             end
         end.

Ltac run_entry :=
  unfold generate_full_parameter, bind, lift, ret, add_to_lists; simpl.

Section EntryPoint.
Variable config : dict.

(** What a call returns does not depend on the lists: they are only
    written, never read. *)
Lemma result_independent_of_lists (g g' : ParameterGenerator) :
  fst (generate_full_parameter config g)
  = fst (generate_full_parameter config g').
Proof.
  run_entry. split_calls; reflexivity.
Qed.

(** A call that raises leaves the object as it was. *)
Lemma raise_keeps_lists (g g' : ParameterGenerator) (e : error) :
  generate_full_parameter config g = (Raise e, g') -> g' = g.
Proof.
  run_entry. split_calls; intros H; inversion H; reflexivity.
Qed.

(** A call that returns has appended the name to the list of its type, and
    bound [updated_lists] to the four views. *)
Lemma ok_appends (g g' : ParameterGenerator) (b : bundle) :
  generate_full_parameter config g = (Ok b, g') ->
  exists name ty,
    getitem config "name" = Ok name /\
    getitem config "type" = Ok ty /\
    g' = snd (add_to_lists name ty g) /\
    lookup "updated_lists" b = Some (Lists updated_lists_views).
Proof.
  run_entry. split_calls; intros H; inversion H; subst;
    eexists _, _; repeat split;
    try match goal with E : eq_str _ _ = _ |- _ => rewrite E end;
    reflexivity.
Qed.

End EntryPoint.

(* ===================================================================== *)
(** * Properties of the generator *)
(* ===================================================================== *)

(** ** Failure leaves the lists alone *)

(** C6: whenever [generate_full_parameter] raises (a missing ['name'],
    ['type'], ['label'], ['min'], ['max'] or ['options'], or a type error
    while rendering), the generator's slider and dropdown lists are what
    they were before the call: the only write is the one [add_to_lists]
    does after everything has been rendered. *)
Theorem failed_call_leaves_lists_unchanged
  (config : dict) (g g' : ParameterGenerator) (e : error) :
  generate_full_parameter config g = (Raise e, g') ->
  slider g' = slider g /\ dropdown g' = dropdown g.
Proof.
  intros H. apply raise_keeps_lists in H. now subst.
Qed.

Lemma failed_call_leaves_lists_unchanged_witness :
  generate_full_parameter slider_without_label init
    = (Raise (KeyError "label"), init)
  /\ slider init = slider init /\ dropdown init = dropdown init.
Proof.
  split; [reflexivity |].
  apply (failed_call_leaves_lists_unchanged
           slider_without_label init init (KeyError "label")).
  reflexivity.
Defined.

(** ** The four views *)

(** C7: after any sequence of compilations, every bundle that was returned
    carries a membership dictionary whose two slider views are the same
    list and whose two dropdown views are the same list, whatever the
    generator's lists have become by the time they are read ([g_later]):
    each pair of keys is bound to one and the same list object. *)
Theorem membership_views_pairwise_identical
  (configs : list dict) (g g_end g_later : ParameterGenerator)
  (rs : list (result bundle)) (b : bundle) :
  run_all configs g = (rs, g_end) ->
  In (Ok b) rs ->
  exists m,
    lookup "updated_lists" b = Some (Lists m) /\
    view g_later m "setupParameterListeners_sliders"
      = view g_later m "loadParamsToModal_sliders" /\
    view g_later m "setupParameterListeners_dropdowns"
      = view g_later m "loadParamsToModal_dropdowns" /\
    view g_later m "setupParameterListeners_sliders" = Some (slider g_later) /\
    view g_later m "setupParameterListeners_dropdowns"
      = Some (dropdown g_later).
Proof.
  revert g rs. induction configs as [| c rest IH]; intros g rs Hrun Hin.
  - inversion Hrun; subst. destruct Hin.
  - simpl in Hrun.
    destruct (generate_full_parameter c g) as [r g1] eqn:Hc.
    destruct (run_all rest g1) as [rs' g2] eqn:Hrest.
    inversion Hrun; subst. destruct Hin as [-> | Hin].
    + apply ok_appends in Hc as (name & ty & _ & _ & _ & Hl).
      exists updated_lists_views. repeat split; assumption || reflexivity.
    + eapply IH; eassumption.
Qed.

Lemma membership_views_pairwise_identical_witness :
  exists b,
    In (Ok b) (fst (run_all [distortion_config; filter_type_config] init)) /\
    exists m,
      lookup "updated_lists" b = Some (Lists m) /\
      view init m "setupParameterListeners_sliders"
        = view init m "loadParamsToModal_sliders" /\
      view init m "setupParameterListeners_dropdowns"
        = view init m "loadParamsToModal_dropdowns" /\
      view init m "setupParameterListeners_sliders" = Some (slider init) /\
      view init m "setupParameterListeners_dropdowns" = Some (dropdown init).
Proof.
  destruct (generate_full_parameter distortion_config init) as [r g1] eqn:E.
  vm_compute in E. inversion E as [[Hr Hg]].
  match type of Hr with Ok ?b = _ => exists b end.
  split; [left; reflexivity |].
  eapply (membership_views_pairwise_identical
            [distortion_config; filter_type_config] init _ init).
  - reflexivity.
  - left. reflexivity.
Defined.

(** ** Compiling a configuration again *)

(** Reading the list a name goes to, before and after [add_to_lists]. *)
Lemma add_to_lists_appends (name ty : value) (g : ParameterGenerator) :
  let g' := snd (add_to_lists name ty g) in
  deref g' (list_of_type ty) = (deref g (list_of_type ty) ++ [name])%list /\
  deref g' (other_list (list_of_type ty))
    = deref g (other_list (list_of_type ty)).
Proof.
  unfold add_to_lists, list_of_type. destruct (eq_str ty "slider"); now simpl.
Qed.

(** C1, as amended: compiling the same configuration a second time returns
    the very same bundle (its membership views are the same list objects),
    and appends the name once more: the list of the parameter's type is one
    entry longer after the second call than after the first, the other list
    is untouched.  Nothing checks whether the name is already there. *)
Theorem recompiling_repeats_bundle_and_appends_again
  (config : dict) (g g1 : ParameterGenerator) (b : bundle) :
  generate_full_parameter config g = (Ok b, g1) ->
  exists name ty g2,
    getitem config "name" = Ok name /\
    getitem config "type" = Ok ty /\
    generate_full_parameter config g1 = (Ok b, g2) /\
    deref g2 (list_of_type ty) = (deref g1 (list_of_type ty) ++ [name])%list /\
    length (deref g2 (list_of_type ty))
      = S (length (deref g1 (list_of_type ty))) /\
    deref g2 (other_list (list_of_type ty))
      = deref g1 (other_list (list_of_type ty)).
Proof.
  intros H1.
  pose proof (result_independent_of_lists config g1 g) as Hfst.
  rewrite H1 in Hfst. simpl in Hfst.
  destruct (generate_full_parameter config g1) as [r2 g2] eqn:H2.
  simpl in Hfst. subst r2.
  apply ok_appends in H2 as (name & ty & Hn & Ht & Hg2 & _).
  exists name, ty, g2. subst g2.
  destruct (add_to_lists_appends name ty g1) as [Happ Hother].
  repeat split; try assumption.
  rewrite Happ, length_app. simpl. lia.
Qed.

Lemma recompiling_repeats_bundle_and_appends_again_witness :
  exists b g1,
    generate_full_parameter distortion_config init = (Ok b, g1) /\
    exists name ty g2,
      getitem distortion_config "name" = Ok name /\
      getitem distortion_config "type" = Ok ty /\
      generate_full_parameter distortion_config g1 = (Ok b, g2) /\
      deref g2 (list_of_type ty) = (deref g1 (list_of_type ty) ++ [name])%list /\
      length (deref g2 (list_of_type ty))
        = S (length (deref g1 (list_of_type ty))) /\
      deref g2 (other_list (list_of_type ty))
        = deref g1 (other_list (list_of_type ty)).
Proof.
  eexists _, _. split; [vm_compute; reflexivity |].
  apply (recompiling_repeats_bundle_and_appends_again distortion_config init).
  reflexivity.
Defined.

(** C1 as stated fails: compiling [distortion_config] twice on a fresh
    generator returns the same bundle both times, but the slider list has 27
    entries after the first call and 28 after the second, with the name in
    it twice. *)
Lemma recompiling_grows_list_counterexample :
  let g1 := snd (generate_full_parameter distortion_config init) in
  let g2 := snd (generate_full_parameter distortion_config g1) in
  fst (generate_full_parameter distortion_config g1)
    = fst (generate_full_parameter distortion_config init) /\
  length (slider g1) = 27%nat /\
  length (slider g2) = 28%nat /\
  length (slider g2) <> length (slider g1) /\
  skipn 26 (slider g2) = [VStr "distortion"; VStr "distortion"].
Proof.
  vm_compute. repeat split; discriminate.
Qed.

(** ** One name, two kinds *)

(** C3, as amended: there is no check of the name against the lists.  When
    a name has been compiled under one kind, a configuration with the same
    name and the other kind is compiled like any other: it returns its
    bundle whenever its own fields render, and the name is appended to the
    second kind's list, so that it is then in both lists. *)
Theorem same_name_other_kind_is_accepted
  (c1 c2 : dict) (g g1 : ParameterGenerator) (b1 b2 : bundle)
  (name ty1 ty2 : value) :
  generate_full_parameter c1 g = (Ok b1, g1) ->
  getitem c1 "name" = Ok name ->
  getitem c2 "name" = Ok name ->
  getitem c1 "type" = Ok ty1 ->
  getitem c2 "type" = Ok ty2 ->
  list_of_type ty1 <> list_of_type ty2 ->
  fst (generate_full_parameter c2 g) = Ok b2 ->
  exists g2,
    generate_full_parameter c2 g1 = (Ok b2, g2) /\
    In name (slider g2) /\ In name (dropdown g2).
Proof.
  intros H1 Hn1 Hn2 Ht1 Ht2 Hkind Hc2.
  rewrite (result_independent_of_lists c2 g g1) in Hc2.
  destruct (generate_full_parameter c2 g1) as [r2 g2] eqn:H2.
  simpl in Hc2. subst r2. exists g2. split; [reflexivity |].
  apply ok_appends in H1 as (n1 & t1 & Hn1' & Ht1' & Hg1 & _).
  apply ok_appends in H2 as (n2 & t2 & Hn2' & Ht2' & Hg2 & _).
  assert (n1 = name) by congruence. assert (n2 = name) by congruence.
  assert (t1 = ty1) by congruence. assert (t2 = ty2) by congruence.
  subst n1 n2 t1 t2 g2 g1.
  unfold add_to_lists, list_of_type in *.
  destruct (eq_str ty1 "slider"), (eq_str ty2 "slider"); simpl;
    try congruence; rewrite ?in_app_iff; simpl; auto.
Qed.

Lemma same_name_other_kind_is_accepted_witness :
  exists b1 g1 b2,
    generate_full_parameter distortion_config init = (Ok b1, g1) /\
    fst (generate_full_parameter distortion_as_dropdown init) = Ok b2 /\
    exists g2,
      generate_full_parameter distortion_as_dropdown g1 = (Ok b2, g2) /\
      In (VStr "distortion") (slider g2) /\
      In (VStr "distortion") (dropdown g2).
Proof.
  eexists _, _, _.
  split; [vm_compute; reflexivity |]. split; [vm_compute; reflexivity |].
  eapply (same_name_other_kind_is_accepted
            distortion_config distortion_as_dropdown init).
  - vm_compute. reflexivity.
  - reflexivity.
  - reflexivity.
  - reflexivity.
  - reflexivity.
  - discriminate.
  - reflexivity.
Defined.

(** C3 as stated fails: after ['distortion'] has been compiled as a slider,
    compiling the same name as a dropdown raises nothing; the call returns
    a bundle and the name, absent from the dropdown list before the call,
    is in it afterwards. *)
Lemma same_name_other_kind_counterexample :
  let g1 := snd (generate_full_parameter distortion_config init) in
  let r2 := fst (generate_full_parameter distortion_as_dropdown g1) in
  let g2 := snd (generate_full_parameter distortion_as_dropdown g1) in
  In (VStr "distortion") (slider g1) /\
  (forall e, r2 <> Raise e) /\
  existsb (fun v => eq_str v "distortion") (dropdown g1) = false /\
  existsb (fun v => eq_str v "distortion") (dropdown g2) = true /\
  g2 <> g1.
Proof.
  vm_compute. repeat split; try discriminate.
  do 26 right. left. reflexivity.
Qed.

(** ** The default entry *)

(** C8, as amended: the default entry pairs the name with the default
    wrapped in single quotes, for every kind alike.  The text is built
    before the type is looked at: [str(name)], [: '], the [str] of the
    configured default (['0'] when there is none), and a closing [']. *)
Theorem default_entry_is_single_quoted
  (config : dict) (g g' : ParameterGenerator) (b : bundle) :
  generate_full_parameter config g = (Ok b, g') ->
  exists name,
    getitem config "name" = Ok name /\
    lookup "default_param" b
      = Some (Text (VStr (str name ++ ": '"
                            ++ str (get config "default" (VStr "0")) ++ "'"))).
Proof.
  run_entry. split_calls; intros H; inversion H; subst;
    eexists; split; reflexivity.
Qed.

Lemma default_entry_is_single_quoted_witness :
  exists b g',
    generate_full_parameter distortion_config init = (Ok b, g') /\
    exists name,
      getitem distortion_config "name" = Ok name /\
      lookup "default_param" b
        = Some (Text (VStr (str name ++ ": '"
                  ++ str (get distortion_config "default" (VStr "0")) ++ "'"))).
Proof.
  eexists _, _. split; [vm_compute; reflexivity |].
  eapply (default_entry_is_single_quoted distortion_config init).
  vm_compute. reflexivity.
Defined.

(** C8 as stated fails for sliders: the slider of [main], whose default is
    the integer 0, gets the entry [distortion: '0'], with quotes, and not
    the unquoted [distortion: 0]. *)
Lemma slider_default_is_quoted_counterexample :
  match fst (generate_full_parameter distortion_config init) with
  | Ok b =>
      lookup "type" distortion_config = Some (VStr "slider") /\
      lookup "default_param" b = Some (Text (VStr "distortion: '0'")) /\
      lookup "default_param" b <> Some (Text (VStr "distortion: 0"))
  | Raise _ => False
  end.
Proof.
  vm_compute. repeat split. discriminate.
Qed.

(** ** Types other than ['slider'] *)

Lemma eq_str_false (v : value) (text : string) :
  v <> VStr text -> eq_str v text = false.
Proof.
  intros Hne. destruct v; simpl; try reflexivity.
  apply String.eqb_neq. congruence.
Qed.

(** C9: when ['type'] is anything but the string ['slider'], the call is the
    dropdown branch and nothing else: it needs ['label'] and ['options']
    (raising what their lookup or the rendering raises, lists untouched),
    and otherwise returns exactly the name, the default entry, the dropdown
    markup and the membership views, with no formatter and no parser, after
    appending the name to the dropdown list. *)
Theorem other_types_take_dropdown_branch
  (config : dict) (g : ParameterGenerator) (name ty : value) :
  getitem config "name" = Ok name ->
  getitem config "type" = Ok ty ->
  ty <> VStr "slider" ->
  generate_full_parameter config g =
    match getitem config "label" with
    | Raise e => (Raise e, g)
    | Ok label =>
        match getitem config "options" with
        | Raise e => (Raise e, g)
        | Ok options =>
            match generate_dropdown_html name label options with
            | Raise e => (Raise e, g)
            | Ok html =>
                (Ok [ ("param_name", Text name);
                      ("default_param",
                       Text (VStr (generate_default_param name
                                     (get config "default" (VStr "0")))));
                      ("html", Text (VStr html));
                      ("updated_lists", Lists updated_lists_views) ],
                 {| slider := slider g;
                    dropdown := (dropdown g ++ [name])%list |})
            end
        end
    end.
Proof.
  intros Hn Ht Hne. apply eq_str_false in Hne.
  run_entry. rewrite Hn, Ht, Hne.
  destruct (getitem config "label"); [| reflexivity].
  destruct (getitem config "options"); [| reflexivity].
  destruct (generate_dropdown_html name a a0); reflexivity.
Qed.

Lemma other_types_take_dropdown_branch_witness :
  VStr "continuous" <> VStr "slider" /\
  exists html,
    generate_dropdown_html (VStr "drive") (VStr "Drive")
      (get continuous_config "options" VNone) = Ok html /\
    generate_full_parameter continuous_config init =
      (Ok [ ("param_name", Text (VStr "drive"));
            ("default_param", Text (VStr "drive: '0'"));
            ("html", Text (VStr html));
            ("updated_lists", Lists updated_lists_views) ],
       {| slider := slider init;
          dropdown := (dropdown init ++ [VStr "drive"])%list |}).
Proof.
  split; [discriminate |].
  eexists. split; [vm_compute; reflexivity |].
  rewrite (other_types_take_dropdown_branch continuous_config init
             (VStr "drive") (VStr "continuous"));
    [reflexivity | reflexivity | reflexivity | discriminate].
Defined.

(** ** The value span of a slider *)

(** C10: whatever the name, label, range and default, the markup of a
    slider holds the value span of that parameter with the fixed text
    [0.0%] in it; neither the default value nor a codec enters it. *)
Theorem slider_value_span_is_constant
  (param_name label min_val max_val default_val : value) :
  occurs_in (value_span param_name "0.0%")
    (generate_slider_html param_name label min_val max_val default_val).
Proof.
  eapply occurs_in_trans; [| apply occurs_in_join; do 4 right; left; reflexivity].
  apply (occurs_in_app_r "        "), occurs_in_refl.
Qed.

(** ** Text in the markup *)

Lemma map_result_ok {A B} (f : A -> result B) (l : list A) (ys : list B) :
  map_result f l = Ok ys -> Forall (fun a => exists y, f a = Ok y /\ In y ys) l.
Proof.
  revert ys. induction l as [| a l IH]; intros ys H; [constructor |].
  simpl in H. destruct (f a) as [y | e] eqn:Ha; [| discriminate].
  simpl in H. destruct (map_result f l) as [ys' | e] eqn:Hl; [| discriminate].
  inversion H; subst. constructor.
  - exists y. split; [assumption | now left].
  - specialize (IH ys' eq_refl).
    eapply Forall_impl; [| exact IH].
    intros a' (y' & Hy & Hin). exists y'. split; [assumption | now right].
Qed.

Lemma option_html_element (opt : value) (line : string) :
  option_html opt = Ok line ->
  exists v l,
    subscript opt "value" = Ok v /\ subscript opt "label" = Ok l /\
    occurs_in (option_element v l) line.
Proof.
  unfold option_html. intros H.
  destruct (subscript opt "value") as [v | e]; [| discriminate].
  destruct (subscript opt "label") as [l | e]; [| discriminate].
  inversion H; subst. exists v, l. repeat split.
  apply (occurs_in_app_r "                "), occurs_in_refl.
Qed.

(** The dropdown markup, once the option lines are rendered. *)
Lemma dropdown_html_lines (param_name label : value) (options : list value)
  (html : string) :
  generate_dropdown_html param_name label (VList options) = Ok html ->
  exists lines,
    map_result option_html options = Ok lines /\
    html = join nl
      [ "<div class=" ++ quoted "param" ++ ">";
        "    <label class=" ++ quoted "param-label" ++ ">" ++ str label
          ++ "</label>";
        "    <select class=" ++ quoted "select"
          ++ " id=" ++ quoted (str param_name) ++ ">";
        join nl lines;
        "    </select>";
        "</div>" ].
Proof.
  unfold generate_dropdown_html. cbn [iterate rbind].
  destruct (map_result option_html options) as [lines | e]; cbn [rbind];
    intros H; inversion H. eauto.
Qed.

(** C2, as amended: the label, and each option's value and label, are put
    into the markup as they are, character for character, with no escaping:
    the slider and the dropdown markup hold the label element with the
    label's own text, and the dropdown markup holds, for every option, the
    option element with that option's own value and label. *)
Theorem markup_holds_text_verbatim
  (param_name label min_val max_val default_val : value)
  (options : list value) (html : string) :
  generate_dropdown_html param_name label (VList options) = Ok html ->
  occurs_in (label_element label)
    (generate_slider_html param_name label min_val max_val default_val) /\
  occurs_in (label_element label) html /\
  Forall (fun opt =>
            exists v l,
              subscript opt "value" = Ok v /\ subscript opt "label" = Ok l /\
              occurs_in (option_element v l) html)
         options.
Proof.
  intros H. split; [| split].
  - eapply occurs_in_trans; [| apply occurs_in_join; right; left; reflexivity].
    apply (occurs_in_app_r "    "), occurs_in_refl.
  - apply dropdown_html_lines in H as (lines & _ & ->).
    eapply occurs_in_trans; [| apply occurs_in_join; right; left; reflexivity].
    apply (occurs_in_app_r "    "), occurs_in_refl.
  - apply dropdown_html_lines in H as (lines & Hl & ->).
    apply map_result_ok in Hl.
    eapply Forall_impl; [| exact Hl].
    intros opt (line & Hline & Hin).
    apply option_html_element in Hline as (v & l & Hv & Hlab & Hocc).
    exists v, l. repeat split; try assumption.
    eapply occurs_in_trans; [exact Hocc |].
    eapply occurs_in_trans; [apply occurs_in_join; exact Hin |].
    apply occurs_in_join. do 3 right. left. reflexivity.
Qed.

Lemma markup_holds_text_verbatim_witness :
  exists html,
    generate_dropdown_html (VStr "tone") markup_label markup_options = Ok html /\
    occurs_in (label_element markup_label)
      (generate_slider_html (VStr "tone") markup_label
         (VInt 0) (VInt 1000) (VInt 0)) /\
    occurs_in (label_element markup_label) html /\
    Forall (fun opt =>
              exists v l,
                subscript opt "value" = Ok v /\ subscript opt "label" = Ok l /\
                occurs_in (option_element v l) html)
           [ VDict [("value", VStr "a<b"); ("label", VStr "R&B")] ].
Proof.
  eexists. split; [vm_compute; reflexivity |].
  apply (markup_holds_text_verbatim (VStr "tone") markup_label).
  vm_compute. reflexivity.
Defined.

(** C2 as stated fails: a label and an option with the reserved characters
    [<], [>] and [&] come out raw in the slider and the dropdown markup, and
    their escaped forms are nowhere in it. *)
Lemma reserved_characters_not_escaped_counterexample :
  let slider_html :=
    generate_slider_html (VStr "tone") markup_label
      (VInt 0) (VInt 1000) (VInt 0) in
  contains "<b>Cut & Boost</b>" slider_html = true /\
  contains (spec_escape_markup "<b>Cut & Boost</b>") slider_html = false /\
  match generate_dropdown_html (VStr "tone") markup_label markup_options with
  | Ok html =>
      contains "<b>Cut & Boost</b>" html = true /\
      contains (spec_escape_markup "<b>Cut & Boost</b>") html = false /\
      contains (option_element (VStr "a<b") (VStr "R&B")) html = true /\
      contains (spec_escape_markup "a<b") html = false /\
      contains (spec_escape_markup "R&B") html = false
  | Raise _ => False
  end.
Proof.
  vm_compute. repeat split.
Qed.

(** ** Unknown codec names *)

Lemma not_registered (name : string) :
  ~ In name registered ->
  String.eqb name "percentage" = false /\ String.eqb name "db" = false /\
  String.eqb name "semitones" = false /\ String.eqb name "ms" = false /\
  String.eqb name "hz" = false /\ String.eqb name "custom" = false.
Proof.
  intros H. repeat split; apply String.eqb_neq; intros ->; apply H;
    simpl; tauto.
Qed.

(** C5: for every parameter name, every option bag and every codec name
    that is not a key of the table (the five built-in names and
    ['custom']), the formatter and the parser returned are the ones
    returned for ['percentage'] with the same name and options. *)
Theorem unknown_codec_falls_back_to_percentage
  (param_name : value) (kwargs : dict) (name : string) :
  ~ In name registered ->
  generate_display_formatter param_name (VStr name) kwargs
    = generate_display_formatter param_name (VStr "percentage") kwargs /\
  generate_parser param_name (VStr name) kwargs
    = generate_parser param_name (VStr "percentage") kwargs.
Proof.
  intros H.
  destruct (not_registered name H) as (E1 & E2 & E3 & E4 & E5 & E6).
  unfold generate_display_formatter, generate_parser, get_or_percentage,
    formatters, parsers, get.
  simpl. now rewrite E1, E2, E3, E4, E5, E6.
Qed.

Lemma unknown_codec_falls_back_to_percentage_witness :
  ~ In "decibel" registered /\
  generate_display_formatter (VStr "gain") (VStr "decibel") [("divisor", VInt 5)]
    = generate_display_formatter (VStr "gain") (VStr "percentage")
        [("divisor", VInt 5)] /\
  generate_parser (VStr "gain") (VStr "decibel") [("divisor", VInt 5)]
    = generate_parser (VStr "gain") (VStr "percentage") [("divisor", VInt 5)].
Proof.
  assert (H : ~ In "decibel" registered)
    by (simpl; intuition discriminate).
  split; [exact H |].
  apply (unknown_codec_falls_back_to_percentage
           (VStr "gain") [("divisor", VInt 5)] "decibel" H).
Defined.

(* ===================================================================== *)
(** * The emitted text is the printed program *)
(* ===================================================================== *)


Lemma emitted_parser (c : codec) (name : value) (kwargs : dict) :
  generate_parser name (VStr (codec_name c)) kwargs
  = Ok (VStr (print (parser_fragment c name kwargs))).
Proof.
  destruct c; unfold generate_parser, get_or_percentage, parsers, print, parser_fragment, join;
  cbn -[str get]; repeat (rewrite !append_assoc; cbn -[str get]); reflexivity.
Qed.

(* ===================================================================== *)
(** * What the emitted pairs compute *)
(* ===================================================================== *)

Section CodecSemantics.
Local Open Scope Z_scope.

Lemma Qdiv_by_pos (v : Z) (p : positive) :
  (inject_Z v / (Zpos p # 1))%Q = (v # p).
Proof.
  unfold Qdiv, Qmult, Qinv, inject_Z. cbn [Qnum Qden].
  f_equal; lia.
Qed.

Lemma safe_below_1e21 (v : Z) (p : positive) :
  safe_integer v -> below_1e21 (v # p) = true.
Proof.
  unfold safe_integer, below_1e21. intros H. cbn [Qnum Qden].
  apply Z.ltb_lt.
  change (2 ^ 53) with 9007199254740992 in H.
  change (10 ^ 21) with 1000000000000000000000. lia.
Qed.

Ltac step :=
  cbn [body exec eval lookup setitem String.eqb Ascii.eqb Bool.eqb
       eval_binop arith eval_builtin option_map val of_Z scaled sign_prefix
       round_times].

(** [(val >= 0 ? '+' : '') + (val / p).toFixed(d) + unit] *)
Lemma eval_signed_scaled (rho : env) (v : Z) (lit : string) (p : positive)
  (d : nat) (unit : string) :
  lookup "val" rho = Some (of_Z v) ->
  literal_value lit = Some (Zpos p # 1)%Q ->
  safe_integer v ->
  eval rho (Bin Add (Bin Add sign_prefix
                       (ToFixed (Paren (Bin Div val (Num lit))) d))
                    (Str unit))
  = Some (JStr ((if 0 <=? v then "+" else "")
                ++ to_fixed (v # p) d ++ unit)).
Proof.
  intros Hval Hlit Hsafe. step. rewrite Hval, Hlit. step.
  change (literal_value "0") with (Some (0 # 1)%Q). step.
  change (Qeq_bool (Zpos p # 1) 0) with false. cbv iota.
  rewrite Qdiv_by_pos, safe_below_1e21 by assumption.
  assert (Hge : Qle_bool (0 # 1) (inject_Z v) = (0 <=? v)).
  { unfold Qle_bool, inject_Z. cbn [Qnum Qden]. f_equal; lia. }
  rewrite Hge. destruct (0 <=? v); cbn [eval_binop]; now rewrite append_assoc.
Qed.

(** The [db] formatter, as a function of the raw value. *)
Lemma forward_db name kwargs v :
  safe_integer v ->
  forwardOf (formatter_fragment Db name kwargs) v
  = Some ((if 0 <=? v then "+" else "") ++ to_fixed (v # 1000) 1 ++ " dB").
Proof.
  intros Hv. unfold forwardOf, formatter_fragment. cbn [body exec].
  rewrite (eval_signed_scaled _ v "1000" 1000 1 " dB")
    by (assumption || reflexivity).
  reflexivity.
Qed.

End CodecSemantics.

(* ===================================================================== *)
(** * Further properties: the dropdown markup *)
(* ===================================================================== *)

Section DropdownMarkup.

Lemma map_result_Forall2 {A B} (f : A -> result B) (l : list A) (ys : list B) :
  map_result f l = Ok ys -> Forall2 (fun a y => f a = Ok y) l ys.
Proof.
  revert ys. induction l as [| a l IH]; intros ys H.
  - inversion H. constructor.
  - cbn [map_result] in H. destruct (f a) as [y | e] eqn:Ha; [| discriminate].
    cbn [rbind] in H.
    destruct (map_result f l) as [ys' | e]; [| discriminate].
    inversion H; subst. constructor; auto.
Qed.

Lemma map_result_all_ok {A B} (f : A -> result B) (l : list A) :
  Forall (fun a => exists y, f a = Ok y) l -> exists ys, map_result f l = Ok ys.
Proof.
  induction 1 as [| a l (y & Hy) _ (ys & Hys)]; [now exists [] |].
  exists (y :: ys). cbn [map_result]. now rewrite Hy, Hys.
Qed.

Lemma map_result_first_error {A B} (f : A -> result B)
  (good rest : list A) (bad : A) (e : error) :
  Forall (fun a => exists y, f a = Ok y) good ->
  f bad = Raise e ->
  map_result f (good ++ bad :: rest) = Raise e.
Proof.
  induction 1 as [| a l (y & Hy) _ IH]; intros Hbad; cbn [app map_result].
  - now rewrite Hbad.
  - rewrite Hy. cbn [rbind]. now rewrite IH.
Qed.

Lemma option_html_ok (opt : value) (line : string) :
  option_html opt = Ok line <->
  exists v l, subscript opt "value" = Ok v /\ subscript opt "label" = Ok l /\
              line = option_line v l.
Proof.
  unfold option_html. split.
  - destruct (subscript opt "value") as [v | e]; [| discriminate].
    destruct (subscript opt "label") as [l | e]; [| discriminate].
    intros H. inversion H. now exists v, l.
  - intros (v & l & -> & -> & ->). reflexivity.
Qed.

Lemma dropdown_html_of_lines (param_name label : value) (options : list value) :
  generate_dropdown_html param_name label (VList options)
  = rbind (map_result option_html options)
          (fun lines => Ok (dropdown_markup param_name label lines)).
Proof. reflexivity. Qed.

(** X1: when the dropdown markup is rendered for a list of options, it is
    the template around one option line per option, in the order of the
    list, each line holding that option's own value and label. *)
Theorem dropdown_options_in_order
  (param_name label : value) (options : list value) (html : string) :
  generate_dropdown_html param_name label (VList options) = Ok html ->
  exists lines,
    html = dropdown_markup param_name label lines /\
    Forall2 (fun opt line =>
               exists v l,
                 subscript opt "value" = Ok v /\
                 subscript opt "label" = Ok l /\
                 line = option_line v l)
            options lines.
Proof.
  rewrite dropdown_html_of_lines.
  destruct (map_result option_html options) as [lines | e] eqn:Hl;
    [| discriminate].
  cbn [rbind]. intros H. inversion H. exists lines. split; [reflexivity |].
  apply map_result_Forall2 in Hl.
  eapply Forall2_impl; [| exact Hl].
  intros opt line Hline. now apply option_html_ok.
Qed.

(** X2: for a list of options, the dropdown markup is rendered exactly when
    every option can be subscripted with ['value'] and with ['label']; the
    parameter name and the label play no part in it. *)
Theorem dropdown_renders_iff_options_complete
  (param_name label : value) (options : list value) :
  (exists html, generate_dropdown_html param_name label (VList options) = Ok html)
  <->
  Forall (fun opt =>
            exists v l,
              subscript opt "value" = Ok v /\ subscript opt "label" = Ok l)
         options.
Proof.
  rewrite dropdown_html_of_lines. split.
  - intros (html & H).
    destruct (map_result option_html options) as [lines | e] eqn:Hl;
      [| discriminate].
    apply map_result_Forall2 in Hl. clear H.
    induction Hl as [| opt line opts lines Hline _ IH]; constructor; auto.
    apply option_html_ok in Hline as (v & l & Hv & Hlab & _). eauto.
  - intros Hall.
    destruct (map_result_all_ok option_html options) as (lines & Hl).
    + eapply Forall_impl; [| exact Hall].
      intros opt (v & l & Hv & Hlab). exists (option_line v l).
      apply option_html_ok. eauto.
    + rewrite Hl. cbn [rbind]. eauto.
Qed.

(** X3: the error of the dropdown markup is the error of the first option
    that fails, whatever comes after it: its ['value'] is looked up before
    its ['label'], and later options are not looked at. *)
Theorem dropdown_raises_first_option_error
  (param_name label : value) (good rest : list value) (bad : value)
  (e : error) :
  Forall (fun opt =>
            exists v l,
              subscript opt "value" = Ok v /\ subscript opt "label" = Ok l)
         good ->
  (subscript bad "value" = Raise e \/
   (exists v, subscript bad "value" = Ok v) /\ subscript bad "label" = Raise e) ->
  generate_dropdown_html param_name label (VList (good ++ bad :: rest))
  = Raise e.
Proof.
  intros Hgood Hbad. rewrite dropdown_html_of_lines.
  rewrite (map_result_first_error option_html good rest bad e);
    [reflexivity | |].
  - eapply Forall_impl; [| exact Hgood].
    intros opt (v & l & Hv & Hlab). exists (option_line v l).
    apply option_html_ok. eauto.
  - unfold option_html. destruct Hbad as [-> | [(v & ->) ->]]; reflexivity.
Qed.

(** X4: options that are not a list.  The empty string and the empty
    dictionary render a selector without options; every other value (a
    number, [None], a non-empty string or dictionary) raises a type
    error. *)
Theorem dropdown_options_of_other_types
  (param_name label options : value) :
  match options with
  | VList _ => True
  | VStr EmptyString | VDict [] =>
      generate_dropdown_html param_name label options
      = Ok (dropdown_markup param_name label [])
  | _ =>
      exists msg,
        generate_dropdown_html param_name label options = Raise (TypeError msg)
  end.
Proof.
  destruct options as [| b | z | t | s | items | entries]; try (eexists; reflexivity); try exact I.
  - destruct s as [| c s]; [reflexivity |]. eexists. reflexivity.
  - destruct entries as [| [k v] entries]; [reflexivity |]. eexists. reflexivity.
Qed.

Lemma dropdown_options_in_order_witness :
  exists lines,
    dropdown_markup (VStr "tone") markup_label
      ["                <option value=" ++ quoted "a<b" ++ ">R&B</option>"]
    = dropdown_markup (VStr "tone") markup_label lines /\
    Forall2 (fun opt line =>
               exists v l,
                 subscript opt "value" = Ok v /\
                 subscript opt "label" = Ok l /\
                 line = option_line v l)
            [VDict [("value", VStr "a<b"); ("label", VStr "R&B")]] lines.
Proof.
  apply (dropdown_options_in_order (VStr "tone") markup_label
           [VDict [("value", VStr "a<b"); ("label", VStr "R&B")]]).
  reflexivity.
Defined.

Lemma dropdown_raises_first_option_error_witness :
  generate_dropdown_html (VStr "mode") (VStr "Mode")
    (VList [ VDict [("value", VStr "0"); ("label", VStr "Off")];
             VDict [("value", VStr "1")];
             VInt 3 ])
  = Raise (KeyError "label").
Proof.
  apply (dropdown_raises_first_option_error (VStr "mode") (VStr "Mode")
           [VDict [("value", VStr "0"); ("label", VStr "Off")]]
           [VInt 3] (VDict [("value", VStr "1")]) (KeyError "label")).
  - repeat constructor. exists (VStr "0"), (VStr "Off"). split; reflexivity.
  - right. split; [exists (VStr "1") |]; reflexivity.
Defined.

End DropdownMarkup.

(* ===================================================================== *)
(** * Further properties: the formatter and parser tables *)
(* ===================================================================== *)

Section CodecTables.

(** X5: with the ['custom'] codec and a [custom_code] option, the formatter
    and the parser are both that option, unchanged (whatever its type): the
    two artifacts are the same value. *)
Theorem custom_code_is_both_formatter_and_parser
  (param_name : value) (kwargs : dict) (code : value) :
  lookup "custom_code" kwargs = Some code ->
  generate_display_formatter param_name (VStr "custom") kwargs = Ok code /\
  generate_parser param_name (VStr "custom") kwargs = Ok code.
Proof.
  intros H.
  unfold generate_display_formatter, generate_parser, get_or_percentage,
    formatters, parsers, get.
  cbn [hashable getitem lookup String.eqb Ascii.eqb Bool.eqb rbind].
  now rewrite H.
Qed.

Lemma eqb_false_of_notin (name : string) (keys : list string) (k : string) :
  ~ In name keys -> In k keys -> String.eqb name k = false.
Proof.
  intros Hn Hk. apply String.eqb_neq. intros ->. now apply Hn.
Qed.

(** X6: for every codec name other than ['ms'], ['hz'] and ['custom']
    (the fixed-scale codecs and every unregistered name), the formatter
    does not depend on the options, and the parser depends neither on the
    options nor on the parameter name. *)
Theorem fixed_scale_codecs_ignore_options
  (name1 name2 : value) (kwargs1 kwargs2 : dict) (format_type : string) :
  ~ In format_type ["ms"; "hz"; "custom"] ->
  generate_display_formatter name1 (VStr format_type) kwargs1
    = generate_display_formatter name1 (VStr format_type) kwargs2 /\
  generate_parser name1 (VStr format_type) kwargs1
    = generate_parser name2 (VStr format_type) kwargs2.
Proof.
  intros H.
  assert (E1 : String.eqb format_type "ms" = false)
    by (apply (eqb_false_of_notin _ _ _ H); simpl; tauto).
  assert (E2 : String.eqb format_type "hz" = false)
    by (apply (eqb_false_of_notin _ _ _ H); simpl; tauto).
  assert (E3 : String.eqb format_type "custom" = false)
    by (apply (eqb_false_of_notin _ _ _ H); simpl; tauto).
  unfold generate_display_formatter, generate_parser, get_or_percentage,
    formatters, parsers, get.
  cbn [hashable getitem lookup rbind].
  change (String.eqb "percentage" "percentage") with true. cbv iota.
  rewrite E1, E2, E3.
  destruct (String.eqb format_type "percentage"),
           (String.eqb format_type "db"),
           (String.eqb format_type "semitones"); split; reflexivity.
Qed.

(** X7: for every codec name other than ['custom'], registered or not,
    the formatter is one complete switch case: it opens with the case label
    of the parameter and closes with the indented [break;]. *)
Theorem formatter_is_a_complete_case
  (param_name : value) (kwargs : dict) (format_type : string) :
  format_type <> "custom" ->
  exists statements,
    generate_display_formatter param_name (VStr format_type) kwargs
    = Ok (VStr (("case '" ++ str param_name ++ "':") ++ nl
                ++ statements ++ nl ++ "    break;")).
Proof.
  intros H. apply String.eqb_neq in H.
  unfold generate_display_formatter, get_or_percentage, formatters, get.
  cbn [hashable getitem lookup rbind].
  change (String.eqb "percentage" "percentage") with true. cbv iota.
  rewrite H. unfold join.
  destruct (String.eqb format_type "percentage"); [eexists; reflexivity |].
  destruct (String.eqb format_type "db"); [eexists; reflexivity |].
  destruct (String.eqb format_type "semitones"); [eexists; reflexivity |].
  destruct (String.eqb format_type "ms"); [eexists; reflexivity |].
  destruct (String.eqb format_type "hz"); [| eexists; reflexivity].
  exists (("    const hz_" ++ str param_name ++ " = "
            ++ str (get kwargs "min_hz" (VFloat "0.1"))
            ++ " + ((val / 1000) * ("
            ++ str (get kwargs "max_hz" (VInt 20)) ++ " - "
            ++ str (get kwargs "min_hz" (VFloat "0.1")) ++ "));")
          ++ nl ++ "    text = hz_" ++ str param_name
          ++ ".toFixed(2) + ' Hz';").
  cbn [String.concat]. unfold get. rewrite !append_assoc. reflexivity.
Qed.

Lemma custom_code_is_both_formatter_and_parser_witness :
  generate_display_formatter (VStr "drive") (VStr "custom")
    [("custom_code", VStr "return val;")] = Ok (VStr "return val;") /\
  generate_parser (VStr "drive") (VStr "custom")
    [("custom_code", VStr "return val;")] = Ok (VStr "return val;").
Proof.
  apply (custom_code_is_both_formatter_and_parser (VStr "drive")
           [("custom_code", VStr "return val;")] (VStr "return val;")).
  reflexivity.
Defined.

Lemma fixed_scale_codecs_ignore_options_witness :
  generate_display_formatter (VStr "gain") (VStr "db") []
    = generate_display_formatter (VStr "gain") (VStr "db")
        [("divisor", VInt 7)] /\
  generate_parser (VStr "gain") (VStr "db") []
    = generate_parser (VStr "pan") (VStr "db") [("divisor", VInt 7)].
Proof.
  apply (fixed_scale_codecs_ignore_options (VStr "gain") (VStr "pan")
           [] [("divisor", VInt 7)] "db").
  simpl. intuition discriminate.
Defined.

Lemma formatter_is_a_complete_case_witness :
  exists statements,
    generate_display_formatter (VStr "rate") (VStr "hz") []
    = Ok (VStr (("case '" ++ str (VStr "rate") ++ "':") ++ nl
                ++ statements ++ nl ++ "    break;")).
Proof.
  apply (formatter_is_a_complete_case (VStr "rate") [] "hz").
  discriminate.
Defined.

End CodecTables.

(* ===================================================================== *)
(** * Further properties: the entry point *)
(* ===================================================================== *)

Section EntryPointMore.

Lemma getitem_present (d : dict) (k : string) :
  lookup k d <> None <-> exists v, getitem d k = Ok v.
Proof.
  unfold getitem. destruct (lookup k d) as [v |]; split.
  - eauto.
  - discriminate.
  - congruence.
  - intros (v & H). discriminate.
Qed.

Lemma getitem_absent (d : dict) (k : string) :
  lookup k d = None -> getitem d k = Raise (KeyError k).
Proof. unfold getitem. now intros ->. Qed.

Lemma table_lookup_hashable (table : dict) (key : value) :
  (exists v, get_or_percentage table key = Ok v) ->
  hashable key = true.
Proof.
  unfold get_or_percentage. destruct (hashable key); [reflexivity |].
  intros (v & H). discriminate.
Qed.

Lemma formatter_ok_iff (name ft : value) (kwargs : dict) :
  (exists v, generate_display_formatter name ft kwargs = Ok v)
  <-> hashable ft = true.
Proof.
  split; [apply table_lookup_hashable |].
  intros H. unfold generate_display_formatter, get_or_percentage, formatters.
  rewrite H. cbn [getitem lookup String.eqb Ascii.eqb Bool.eqb rbind]. eauto.
Qed.

Lemma parser_ok_iff (name ft : value) (kwargs : dict) :
  (exists v, generate_parser name ft kwargs = Ok v) <-> hashable ft = true.
Proof.
  split; [apply table_lookup_hashable |].
  intros H. unfold generate_parser, get_or_percentage, parsers.
  rewrite H. cbn [getitem lookup String.eqb Ascii.eqb Bool.eqb rbind]. eauto.
Qed.

(** X8: a configuration of type ['slider'] that has a name compiles
    exactly when ['label'], ['min'] and ['max'] are present, the format
    options unpack as keyword arguments and the format is hashable.
    Nothing else is checked: not the name, not that [min < max], not that
    the default lies in the range. *)
Theorem slider_compiles_iff
  (config : dict) (g : ParameterGenerator) (name : value) :
  getitem config "name" = Ok name ->
  getitem config "type" = Ok (VStr "slider") ->
  ((exists b g', generate_full_parameter config g = (Ok b, g'))
   <->
   lookup "label" config <> None /\
   lookup "min" config <> None /\
   lookup "max" config <> None /\
   (exists kwargs,
      unpack_kwargs codec_method_params
        (get config "format_options" (VDict [])) = Ok kwargs) /\
   hashable (get config "format" (VStr "percentage")) = true).
Proof.
  intros Hn Ht. rewrite !getitem_present.
  unfold generate_full_parameter, bind, lift, ret, add_to_lists.
  rewrite Hn, Ht. cbn [eq_str String.eqb Ascii.eqb Bool.eqb].
  destruct (getitem config "label") as [label | e].
  2:{ split; [intros (b & g' & H); discriminate
              | intros ((v & H) & _); discriminate]. }
  destruct (getitem config "min") as [mn | e].
  2:{ split; [intros (b & g' & H); discriminate
              | intros (_ & (v & H) & _); discriminate]. }
  destruct (getitem config "max") as [mx | e].
  2:{ split; [intros (b & g' & H); discriminate
              | intros (_ & _ & (v & H) & _); discriminate]. }
  destruct (unpack_kwargs codec_method_params
              (get config "format_options" (VDict []))) as [kwargs | e].
  2:{ split; [intros (b & g' & H); discriminate
              | intros (_ & _ & _ & (v & H) & _); discriminate]. }
  destruct (generate_display_formatter name
              (get config "format" (VStr "percentage")) kwargs)
    as [fmt | e] eqn:Hf.
  - assert (Hh : hashable (get config "format" (VStr "percentage")) = true)
      by (apply (formatter_ok_iff name _ kwargs); eauto).
    destruct (proj2 (parser_ok_iff name _ kwargs) Hh) as (prs & Hp).
    rewrite Hp. split; [intros _ | intros _; eauto].
    repeat split; eauto.
  - split; [intros (b & g' & H); discriminate |].
    intros (_ & _ & _ & _ & Hh).
    destruct (proj2 (formatter_ok_iff name _ kwargs) Hh) as (v & Hv).
    congruence.
Qed.

Lemma existsb_collision (bound : list string) (entries : dict) (k : string) :
  In k bound -> lookup k entries <> None ->
  existsb (fun kv => existsb (String.eqb (fst kv)) bound) entries = true.
Proof.
  intros Hk. induction entries as [| [k' v] entries IH]; [easy |].
  cbn [lookup existsb fst]. destruct (String.eqb k k') eqn:E.
  - intros _. apply String.eqb_eq in E as <-.
    apply orb_true_iff. left. apply existsb_exists. exists k.
    split; [assumption | apply String.eqb_refl].
  - intros H. apply orb_true_iff. right. now apply IH.
Qed.

(** X9: a slider whose format options have a key named like a parameter
    of the codec methods ([self], [param_name], [format_type]) raises a
    type error, and the lists are left as they were. *)
Theorem reserved_option_name_raises
  (config : dict) (g : ParameterGenerator) (options : dict) (k : string) :
  getitem config "type" = Ok (VStr "slider") ->
  lookup "name" config <> None ->
  lookup "label" config <> None ->
  lookup "min" config <> None ->
  lookup "max" config <> None ->
  lookup "format_options" config = Some (VDict options) ->
  In k ["self"; "param_name"; "format_type"] ->
  lookup k options <> None ->
  generate_full_parameter config g
  = (Raise (TypeError "got multiple values for argument"), g).
Proof.
  intros Ht Hn Hl Hmin Hmax Ho Hk Hin.
  apply getitem_present in Hn as (name & Hn).
  apply getitem_present in Hl as (label & Hl).
  apply getitem_present in Hmin as (mn & Hmin).
  apply getitem_present in Hmax as (mx & Hmax).
  unfold generate_full_parameter, bind, lift, ret.
  rewrite Hn, Ht. cbn [eq_str String.eqb Ascii.eqb Bool.eqb].
  rewrite Hl, Hmin, Hmax.
  assert (Hu : unpack_kwargs codec_method_params
                 (get config "format_options" (VDict []))
               = Raise (TypeError "got multiple values for argument")).
  { unfold get. rewrite Ho. unfold unpack_kwargs.
    now rewrite (existsb_collision codec_method_params options k Hk Hin). }
  now rewrite Hu.
Qed.

(** X10: the keys are read in the order ['name'], ['type'], ['label'],
    then ['min'], ['max'] for a slider and ['options'] otherwise; the call
    raises the key error of the first one that is missing, and leaves the
    lists as they were. *)
Theorem missing_key_raises_key_error
  (config : dict) (g : ParameterGenerator) (present absent : list string)
  (k : string) :
  required_keys config = (present ++ k :: absent)%list ->
  Forall (fun k' => lookup k' config <> None) present ->
  lookup k config = None ->
  generate_full_parameter config g = (Raise (KeyError k), g).
Proof.
  intros Hreq Hpre Hk. unfold required_keys in Hreq.
  unfold generate_full_parameter, bind, lift, ret.
  assert (Hget : forall k', lookup k' config <> None ->
                            exists v, getitem config k' = Ok v)
    by (intros k'; apply getitem_present).
  pose proof (getitem_absent config k Hk) as Habs.
  (* name *)
  destruct present as [| p1 present]; cbn [app] in Hreq;
    inversion Hreq as [[H1 Hreq1]]; subst.
  { now rewrite Habs. }
  inversion Hpre as [| ? ? Hp1 Hpre1]; subst.
  destruct (Hget _ Hp1) as (name & ->). clear Hreq.
  (* type *)
  destruct present as [| p2 present]; cbn [app] in Hreq1;
    inversion Hreq1 as [[H2 Hreq2]]; subst.
  { now rewrite Habs. }
  inversion Hpre1 as [| ? ? Hp2 Hpre2]; subst.
  destruct (Hget _ Hp2) as (ty & Hty). rewrite Hty. clear Hreq1.
  assert (Hlty : lookup "type" config = Some ty).
  { unfold getitem in Hty. destruct (lookup "type" config); congruence. }
  rewrite Hlty in Hreq2.
  (* label *)
  destruct present as [| p3 present]; cbn [app] in Hreq2;
    inversion Hreq2 as [[H3 Hreq3]]; subst.
  { rewrite Habs. now destruct (eq_str ty "slider"). }
  inversion Hpre2 as [| ? ? Hp3 Hpre3]; subst.
  destruct (Hget _ Hp3) as (label & Hlabel). clear Hreq2.
  destruct (eq_str ty "slider"); rewrite Hlabel.
  - (* min, max *)
    destruct present as [| p4 present]; cbn [app] in Hreq3;
      inversion Hreq3 as [[H4 Hreq4]]; subst.
    { now rewrite Habs. }
    inversion Hpre3 as [| ? ? Hp4 Hpre4]; subst.
    destruct (Hget _ Hp4) as (mn & ->).
    destruct present as [| p5 present]; cbn [app] in Hreq4;
      inversion Hreq4 as [[H5 Hreq5]]; subst.
    { now rewrite Habs. }
    destruct present; discriminate.
  - (* options *)
    destruct present as [| p4 present]; cbn [app] in Hreq3;
      inversion Hreq3 as [[H4 Hreq4]]; subst.
    { now rewrite Habs. }
    destruct present; discriminate.
Qed.

Lemma slider_compiles_iff_witness :
  (exists b g', generate_full_parameter cutoff_config init = (Ok b, g'))
  <->
  lookup "label" cutoff_config <> None /\
  lookup "min" cutoff_config <> None /\
  lookup "max" cutoff_config <> None /\
  (exists kwargs,
     unpack_kwargs codec_method_params
       (get cutoff_config "format_options" (VDict [])) = Ok kwargs) /\
  hashable (get cutoff_config "format" (VStr "percentage")) = true.
Proof.
  apply (slider_compiles_iff cutoff_config init (VStr "filtercutoff"));
    reflexivity.
Defined.

Lemma reserved_option_name_raises_witness :
  generate_full_parameter
    [ ("name", VStr "drive"); ("type", VStr "slider");
      ("label", VStr "Drive"); ("min", VInt 0); ("max", VInt 1000);
      ("format", VStr "ms");
      ("format_options", VDict [("divisor", VInt 10);
                                ("param_name", VStr "drive")]) ]
    init
  = (Raise (TypeError "got multiple values for argument"), init).
Proof.
  apply (reserved_option_name_raises _ init
           [("divisor", VInt 10); ("param_name", VStr "drive")] "param_name");
    try reflexivity; try discriminate.
  simpl. tauto.
Defined.

Lemma missing_key_raises_key_error_witness :
  generate_full_parameter slider_without_label init
  = (Raise (KeyError "label"), init).
Proof.
  apply (missing_key_raises_key_error slider_without_label init
           ["name"; "type"] ["min"; "max"] "label").
  - reflexivity.
  - repeat constructor; discriminate.
  - reflexivity.
Defined.

End EntryPointMore.

(* ===================================================================== *)
(** * Further properties: bundles and lists *)
(* ===================================================================== *)

Section BundlesAndLists.

Lemma default_text_agrees (config : dict) :
  str (get config "default" (VStr "0")) = str (get config "default" (VInt 0)).
Proof. unfold get. now destruct (lookup "default" config). Qed.

(** X11: in a compiled slider the default entry and the [value] attribute
    of the markup show the same text, the [str] of the configured default,
    and [0] when there is none (the two calls use the fallbacks ['0'] and
    [0], which print alike). *)
Theorem slider_default_shown_consistently
  (config : dict) (g g' : ParameterGenerator) (b : bundle) :
  getitem config "type" = Ok (VStr "slider") ->
  generate_full_parameter config g = (Ok b, g') ->
  exists name shown html,
    getitem config "name" = Ok name /\
    shown = str (get config "default" (VInt 0)) /\
    lookup "default_param" b
      = Some (Text (VStr (str name ++ ": '" ++ shown ++ "'"))) /\
    lookup "html" b = Some (Text (VStr html)) /\
    occurs_in (" value=" ++ quoted shown ++ ">") html.
Proof.
  intros Ht. unfold generate_full_parameter, bind, lift, ret, add_to_lists.
  rewrite Ht.
  destruct (getitem config "name") as [name | e]; [| discriminate].
  cbn [eq_str String.eqb Ascii.eqb Bool.eqb].
  destruct (getitem config "label") as [label | e]; [| discriminate].
  destruct (getitem config "min") as [mn | e]; [| discriminate].
  destruct (getitem config "max") as [mx | e]; [| discriminate].
  destruct (unpack_kwargs _ _) as [kwargs | e]; [| discriminate].
  destruct (generate_display_formatter _ _ _) as [fmt | e]; [| discriminate].
  destruct (generate_parser _ _ _) as [prs | e]; [| discriminate].
  intros H. inversion H; subst.
  eexists name, _, _. split; [reflexivity |]. split; [reflexivity |].
  split; [unfold generate_default_param; rewrite default_text_agrees;
          reflexivity |].
  split; [reflexivity |].
  eapply occurs_in_trans;
    [| apply occurs_in_join; do 3 right; left; reflexivity].
  exists ("        <input type=" ++ quoted "range" ++ " class="
            ++ quoted "slider" ++ " id=" ++ quoted (str name)
            ++ " min=" ++ quoted (str mn) ++ " max=" ++ quoted (str mx)), "".
  rewrite !append_assoc, append_nil_r. reflexivity.
Qed.

Lemma same_list_spec (a b : list_ref) : same_list a b = true <-> a = b.
Proof. destruct a, b; simpl; split; congruence. Qed.

(** One call, in terms of [registered_name]. *)
Lemma call_registers (config : dict) (g : ParameterGenerator) (kind : list_ref) :
  deref (snd (generate_full_parameter config g)) kind
  = (deref g kind ++ registered_name kind config)%list.
Proof.
  unfold registered_name.
  rewrite (result_independent_of_lists config init g).
  destruct (generate_full_parameter config g) as [[b | e] g'] eqn:H;
    cbn [fst snd].
  - apply ok_appends in H as (name & ty & -> & -> & -> & _).
    unfold add_to_lists, list_of_type.
    destruct (eq_str ty "slider"), kind; cbn [snd deref slider dropdown same_list];
      now rewrite ?app_nil_r.
  - apply raise_keeps_lists in H as ->. now rewrite app_nil_r.
Qed.

(** X12: compiling any sequence of configurations only appends: every call
    has an outcome, and each final list is the initial list followed by the
    names of the configurations that compiled with a type going to that
    list, in the order of the calls.  Nothing is removed or reordered. *)
Theorem lists_are_append_only
  (configs : list dict) (g g_end : ParameterGenerator)
  (rs : list (result bundle)) :
  run_all configs g = (rs, g_end) ->
  length rs = length configs /\
  slider g_end
    = (slider g ++ flat_map (registered_name SliderList) configs)%list /\
  dropdown g_end
    = (dropdown g ++ flat_map (registered_name DropdownList) configs)%list.
Proof.
  revert g rs. induction configs as [| c rest IH]; intros g rs H.
  - inversion H; subst. cbn [flat_map]. now rewrite !app_nil_r.
  - cbn [run_all] in H.
    pose proof (call_registers c g SliderList) as Hs.
    pose proof (call_registers c g DropdownList) as Hd.
    destruct (generate_full_parameter c g) as [r g1].
    destruct (run_all rest g1) as [rs' g2] eqn:Hrest.
    inversion H; subst. cbn [snd deref] in Hs, Hd.
    destruct (IH g1 rs' Hrest) as (Hlen & Hs' & Hd').
    cbn [length flat_map]. rewrite Hs', Hd', Hs, Hd, <- !app_assoc.
    repeat split. now rewrite Hlen.
Qed.

(** X13: the membership lists of a bundle are live.  Read after a later
    successful call, both views of the later parameter's kind, taken from
    the earlier bundle, end with the later name. *)
Theorem earlier_bundle_sees_later_names
  (c1 c2 : dict) (g g1 g2 : ParameterGenerator) (b1 b2 : bundle) :
  generate_full_parameter c1 g = (Ok b1, g1) ->
  generate_full_parameter c2 g1 = (Ok b2, g2) ->
  exists m name2 ty2,
    lookup "updated_lists" b1 = Some (Lists m) /\
    getitem c2 "name" = Ok name2 /\
    getitem c2 "type" = Ok ty2 /\
    (ty2 = VStr "slider" ->
     view g2 m "setupParameterListeners_sliders"
       = Some (slider g1 ++ [name2])%list /\
     view g2 m "loadParamsToModal_sliders"
       = Some (slider g1 ++ [name2])%list) /\
    (ty2 <> VStr "slider" ->
     view g2 m "setupParameterListeners_dropdowns"
       = Some (dropdown g1 ++ [name2])%list /\
     view g2 m "loadParamsToModal_dropdowns"
       = Some (dropdown g1 ++ [name2])%list).
Proof.
  intros H1 H2.
  apply ok_appends in H1 as (_ & _ & _ & _ & _ & Hm).
  apply ok_appends in H2 as (name2 & ty2 & Hn & Ht & -> & _).
  exists updated_lists_views, name2, ty2. repeat split; try assumption.
  - subst ty2. reflexivity.
  - subst ty2. reflexivity.
  - unfold add_to_lists. now rewrite (eq_str_false _ _ H).
  - unfold add_to_lists. now rewrite (eq_str_false _ _ H).
Qed.

(** X14: a compiled slider whose format is absent, not a string, or a
    string other than ['db'], ['semitones'], ['ms'], ['hz'] and ['custom']
    gets the percentage formatter for its name and the percentage
    parser. *)
Theorem slider_falls_back_to_percentage
  (config : dict) (g g' : ParameterGenerator) (b : bundle) (name : value) :
  getitem config "name" = Ok name ->
  getitem config "type" = Ok (VStr "slider") ->
  (forall s, get config "format" (VStr "percentage") = VStr s ->
             ~ In s ["db"; "semitones"; "ms"; "hz"; "custom"]) ->
  generate_full_parameter config g = (Ok b, g') ->
  lookup "display_formatter" b = Some (Text (VStr (percentage_case name))) /\
  lookup "parser" b = Some (Text (VStr "return Math.round(val * 10);")).
Proof.
  intros Hn Ht Hfmt.
  unfold generate_full_parameter, bind, lift, ret, add_to_lists.
  rewrite Hn, Ht. cbn [eq_str String.eqb Ascii.eqb Bool.eqb].
  destruct (getitem config "label") as [label | e]; [| discriminate].
  destruct (getitem config "min") as [mn | e]; [| discriminate].
  destruct (getitem config "max") as [mx | e]; [| discriminate].
  destruct (unpack_kwargs _ _) as [kwargs | e]; [| discriminate].
  assert (Htab : forall table p,
            lookup "percentage" table = Some p ->
            (forall k, In k ["db"; "semitones"; "ms"; "hz"; "custom"] \/
                       k = "percentage" \/ lookup k table = None) ->
            forall v, get_or_percentage table
                        (get config "format" (VStr "percentage")) = Ok v ->
                      v = p).
  { intros table p Hp Hkeys v. unfold get_or_percentage, getitem.
    rewrite Hp. destruct (hashable _); [| discriminate]. cbn [rbind].
    destruct (get config "format" (VStr "percentage")) as [| | | | s | |] eqn:E;
      try (intros H; now inversion H).
    intros H. inversion H. unfold get.
    destruct (Hkeys s) as [Hin | [-> | ->]]; [| now rewrite Hp | reflexivity].
    now destruct (Hfmt s eq_refl). }
  assert (Hkeys : forall (d : dict) a1 a2 a3 a4 a5 a6 k,
            d = [("percentage", a1); ("db", a2); ("semitones", a3);
                 ("ms", a4); ("hz", a5); ("custom", a6)] ->
            In k ["db"; "semitones"; "ms"; "hz"; "custom"] \/
            k = "percentage" \/ lookup k d = None).
  { intros d a1 a2 a3 a4 a5 a6 k ->. cbn [lookup In].
    destruct (String.eqb_spec k "percentage"); [tauto |].
    destruct (String.eqb_spec k "db"); [subst; tauto |].
    destruct (String.eqb_spec k "semitones"); [subst; tauto |].
    destruct (String.eqb_spec k "ms"); [subst; tauto |].
    destruct (String.eqb_spec k "hz"); [subst; tauto |].
    destruct (String.eqb_spec k "custom"); [subst; tauto |].
    tauto. }
  destruct (generate_display_formatter _ _ _) as [fmt | e] eqn:Hf;
    [| discriminate].
  destruct (generate_parser _ _ _) as [prs | e] eqn:Hp; [| discriminate].
  intros H. inversion H; subst. cbn [lookup setitem String.eqb Ascii.eqb Bool.eqb].
  unfold generate_display_formatter in Hf. unfold generate_parser in Hp.
  eapply Htab in Hf; [| reflexivity | intros k; eapply Hkeys; reflexivity].
  eapply Htab in Hp; [| reflexivity | intros k; eapply Hkeys; reflexivity].
  subst. split; reflexivity.
Qed.

Lemma slider_default_shown_consistently_witness :
  exists b g',
    generate_full_parameter cutoff_config init = (Ok b, g') /\
    exists name shown html,
      getitem cutoff_config "name" = Ok name /\
      shown = str (get cutoff_config "default" (VInt 0)) /\
      lookup "default_param" b
        = Some (Text (VStr (str name ++ ": '" ++ shown ++ "'"))) /\
      lookup "html" b = Some (Text (VStr html)) /\
      occurs_in (" value=" ++ quoted shown ++ ">") html.
Proof.
  eexists _, _. split; [vm_compute; reflexivity |].
  eapply (slider_default_shown_consistently cutoff_config init);
    [reflexivity | vm_compute; reflexivity].
Defined.

Lemma lists_are_append_only_witness :
  let configs := [distortion_config; slider_without_label;
                  filter_type_config] in
  let rs := fst (run_all configs init) in
  let g_end := snd (run_all configs init) in
  length rs = length configs /\
  slider g_end
    = (slider init ++ flat_map (registered_name SliderList) configs)%list /\
  dropdown g_end
    = (dropdown init ++ flat_map (registered_name DropdownList) configs)%list.
Proof.
  apply (lists_are_append_only
           [distortion_config; slider_without_label; filter_type_config] init).
  vm_compute. reflexivity.
Defined.

Lemma earlier_bundle_sees_later_names_witness :
  exists b1 g1 b2 g2,
    generate_full_parameter distortion_config init = (Ok b1, g1) /\
    generate_full_parameter cutoff_config g1 = (Ok b2, g2) /\
    exists m name2 ty2,
      lookup "updated_lists" b1 = Some (Lists m) /\
      getitem cutoff_config "name" = Ok name2 /\
      getitem cutoff_config "type" = Ok ty2 /\
      (ty2 = VStr "slider" ->
       view g2 m "setupParameterListeners_sliders"
         = Some (slider g1 ++ [name2])%list /\
       view g2 m "loadParamsToModal_sliders"
         = Some (slider g1 ++ [name2])%list) /\
      (ty2 <> VStr "slider" ->
       view g2 m "setupParameterListeners_dropdowns"
         = Some (dropdown g1 ++ [name2])%list /\
       view g2 m "loadParamsToModal_dropdowns"
         = Some (dropdown g1 ++ [name2])%list).
Proof.
  eexists _, _, _, _.
  split; [vm_compute; reflexivity |]. split; [vm_compute; reflexivity |].
  eapply (earlier_bundle_sees_later_names distortion_config cutoff_config init);
    vm_compute; reflexivity.
Defined.

Lemma slider_falls_back_to_percentage_witness :
  let config :=
    [ ("name", VStr "drive"); ("type", VStr "slider");
      ("label", VStr "Drive"); ("min", VInt 0); ("max", VInt 1000);
      ("format", VStr "percent") ] in
  exists b g',
    generate_full_parameter config init = (Ok b, g') /\
    lookup "display_formatter" b
      = Some (Text (VStr (percentage_case (VStr "drive")))) /\
    lookup "parser" b = Some (Text (VStr "return Math.round(val * 10);")).
Proof.
  intros config.
  eexists _, _. split; [vm_compute; reflexivity |].
  eapply (slider_falls_back_to_percentage config init);
    [reflexivity | reflexivity | | vm_compute; reflexivity].
  intros s H. inversion H. simpl. intuition discriminate.
Defined.

End BundlesAndLists.

(* ===================================================================== *)
(** * Further properties: what the emitted codecs compute *)
(* ===================================================================== *)

Section CodecsMore.
Local Open Scope Z_scope.

(** X18: the [db] formatter shows the same text for two non-negative raw
    values that round to the same tenth of a dB and are not half-way
    between two tenths: up to 99 neighbouring raw values share one
    display text (numbers read exactly). *)
Theorem db_display_collapses_raw_values
  (name : value) (kwargs : dict) (v v' : Z) :
  safe_integer v -> safe_integer v' ->
  0 <= v -> 0 <= v' ->
  v mod 100 <> 50 -> v' mod 100 <> 50 ->
  (v + 50) / 100 = (v' + 50) / 100 ->
  forwardOf (formatter_fragment Db name kwargs) v
  = forwardOf (formatter_fragment Db name kwargs) v'.
Proof.
  intros Hs Hs' Hv Hv' _ _ Hsame.
  rewrite !forward_db by assumption.
  destruct (Z.leb_spec 0 v); [| lia]. destruct (Z.leb_spec 0 v'); [| lia].
  do 2 f_equal. unfold to_fixed, fixed_digits. cbn [Qnum Qden].
  destruct (Z.ltb_spec v 0); [lia |]. destruct (Z.ltb_spec v' 0); [lia |].
  change (pow10 1) with 10%positive.
  assert (E : (2 * Z.abs v * 10 + 1000) / (2 * 1000)
              = (2 * Z.abs v' * 10 + 1000) / (2 * 1000))
    by (Z.div_mod_to_equations; lia).
  now rewrite E.
Qed.

Lemma db_display_collapses_raw_values_witness :
  forwardOf (formatter_fragment Db (VStr "gaindb") []) 1151
  = forwardOf (formatter_fragment Db (VStr "gaindb") []) 1249.
Proof.
  apply (db_display_collapses_raw_values (VStr "gaindb") [] 1151 1249);
    try reflexivity; try lia; discriminate.
Defined.

End CodecsMore.

(* ===================================================================== *)
(** * What the emitted pairs compute on doubles *)
(* ===================================================================== *)

Section DoubleCodecs.
Local Open Scope Z_scope.

(** ** Checking a range of raw values *)

Lemma in_count_up (n : nat) (from v : Z) :
  from <= v < from + Z.of_nat n -> In v (count_up n from).
Proof.
  revert from. induction n as [| n IH]; intros from H; [lia |].
  cbn [count_up]. destruct (Z.eq_dec from v) as [-> | Hne]; [now left |].
  right. apply IH. lia.
Qed.

Lemma holds_between_spec (lo hi : Z) (check : Z -> bool) (v : Z) :
  holds_between lo hi check = true -> lo <= v <= hi -> check v = true.
Proof.
  unfold holds_between, between. intros Hall Hv.
  rewrite forallb_forall in Hall. apply Hall, in_count_up. lia.
Qed.

(** ** The parameter name

    A name of letters, digits and underscores only labels the case and the
    temporary: the text the formatter leaves is the same for every such
    name.  The parser does not mention the name at all. *)
Lemma forward64_any_plain_name (c : codec) (name : value) (kwargs : dict)
  (v : Z) :
  plain_name (str name) = true ->
  forward64 (formatter_fragment c name kwargs) v
  = forward64 (formatter_fragment c (VStr "") kwargs) v.
Proof.
  intros H. unfold forward64, well_formed, formatter_fragment.
  destruct c; cbn [body forallb well_formed_stmt exec64 str plain_name];
    rewrite ?H; try reflexivity.
  assert (Hid : identifier ("hz_" ++ str name) = true)
    by (simpl; rewrite H; reflexivity).
  cbn [well_formed_expr]. rewrite !Hid.
  change (identifier ("hz_" ++ "")) with true.
  match goal with
  | |- (if ?w then _ else _) = _ => destruct w; [| reflexivity]
  end.
  match goal with
  | |- context [eval64 [("val", ?a)] ?e] =>
      destruct (eval64 [("val", a)] e) as [x |]; [| reflexivity]
  end.
  cbn [setitem String.eqb Ascii.eqb Bool.eqb append eval64 lookup].
  rewrite String.eqb_refl.
  destruct x as [d | | |]; try reflexivity.
  cbn [option_map]. destruct (to_fixed64 d 2); reflexivity.
Qed.

Lemma roundtrip64_any_plain_name (c : codec) (name : value) (kwargs : dict)
  (v : Z) :
  plain_name (str name) = true ->
  roundtrip64 c name kwargs v = roundtrip64 c (VStr "") kwargs v.
Proof.
  intros H. unfold roundtrip64. now rewrite forward64_any_plain_name.
Qed.

(** The fixed-scale codecs do not read the options; [ms] reads the
    divisor only. *)
Lemma roundtrip64_ms_divisor (name : value) (kwargs : dict) (d : value) (v : Z) :
  get kwargs "divisor" (VInt 1) = d ->
  roundtrip64 Ms name kwargs v = roundtrip64 Ms name [("divisor", d)] v.
Proof.
  intros H. unfold roundtrip64, formatter_fragment, parser_fragment.
  rewrite H. reflexivity.
Qed.

Lemma exact_at_spec (c : codec) (name : value) (kwargs : dict) (v : Z) :
  plain_name (str name) = true ->
  exact_at c kwargs v = true ->
  returned_integer (roundtrip64 c name kwargs v) = Some v.
Proof.
  intros Hn. rewrite (roundtrip64_any_plain_name c name kwargs v Hn).
  unfold exact_at.
  destruct (returned_integer _) as [w |]; [| discriminate].
  intros H. apply Z.eqb_eq in H. now subst.
Qed.


(** ** The checks *)



Lemma percentage_checked :
  holds_between (-5000) 5000 (exact_at Percentage []) = true.
Proof. vm_compute. reflexivity. Qed.




Lemma ms_divisors_checked :
  forallb (fun d => holds_between 0 1000
                      (exact_at Ms [("divisor", VInt d)]))
          (between 1 10) = true.
Proof. vm_compute. reflexivity. Qed.

(** ** The [hz] parser *)

Lemma hz_parser_well_formed (name : value) (kwargs : dict) (lo hi : double) :
  literal64 (str (get kwargs "min_hz" (VFloat "0.1"))) = Some lo ->
  literal64 (str (get kwargs "max_hz" (VInt 20))) = Some hi ->
  well_formed (parser_fragment Hz name kwargs) = true.
Proof.
  intros Hlo Hhi. unfold well_formed, parser_fragment.
  cbn [body forallb well_formed_stmt well_formed_expr].
  rewrite Hlo, Hhi. reflexivity.
Qed.

End DoubleCodecs.

(** ** Round trips *)

Local Open Scope Z_scope.




(* ===================================================================== *)
(** * Further properties: the emitted codecs on doubles *)
(* ===================================================================== *)

Section DoubleCodecsMore.
Local Open Scope Z_scope.

Ltac run_js64 :=
  cbn [body exec64 eval64 lookup setitem String.eqb Ascii.eqb Bool.eqb
       eval_binop64 eval_builtin64 option_map host_env64].

(** X15: with bounds that print as numeric literals, the [hz] parser the
    generator emits returns [null] for every text that [parseFloat] reads
    as NaN. *)
Theorem hz_parser_rejects_non_numeric_text
  (name : value) (kwargs : dict) (text : string) (lo hi : double) :
  literal64 (str (get kwargs "min_hz" (VFloat "0.1"))) = Some lo ->
  literal64 (str (get kwargs "max_hz" (VInt 20))) = Some hi ->
  parse_float64 text = S754_nan ->
  generate_parser name (VStr "hz") kwargs
    = Ok (VStr (print (parser_fragment Hz name kwargs))) /\
  inverse64 (parser_fragment Hz name kwargs) text = Some DNull.
Proof.
  intros Hlo Hhi Hnan. split; [apply (emitted_parser Hz) |].
  unfold inverse64.
  rewrite (hz_parser_well_formed name kwargs lo hi Hlo Hhi).
  unfold parser_fragment. run_js64. rewrite Hnan. run_js64. reflexivity.
Qed.

(** X16: with bounds that print as numeric literals, the emitted [hz]
    parser returns [null] for a text whose number, as a double, is below
    the lower bound or above the upper bound, as doubles. *)
Theorem hz_parser_rejects_out_of_range
  (name : value) (kwargs : dict) (text : string) (lo hi : double) :
  literal64 (str (get kwargs "min_hz" (VFloat "0.1"))) = Some lo ->
  literal64 (str (get kwargs "max_hz" (VInt 20))) = Some hi ->
  SFltb (parse_float64 text) lo = true \/ SFltb hi (parse_float64 text) = true ->
  inverse64 (parser_fragment Hz name kwargs) text = Some DNull.
Proof.
  intros Hlo Hhi Hout. unfold inverse64.
  rewrite (hz_parser_well_formed name kwargs lo hi Hlo Hhi).
  unfold parser_fragment. run_js64. rewrite Hlo. run_js64.
  destruct (is_nan (parse_float64 text)); [reflexivity |].
  destruct (SFltb (parse_float64 text) lo) eqn:E; [reflexivity |].
  rewrite Hhi. run_js64.
  destruct Hout as [H | H]; [discriminate | now rewrite H].
Qed.

(** X17: for the [ms] codec with an integer divisor from 1 to 10 and a
    parameter name made of letters, digits and underscores, parser after
    formatter, on doubles, recovers every raw value from 0 to 1000. *)
Theorem ms_roundtrip_exact_up_to_divisor_ten
  (name : value) (kwargs : dict) (d v : Z) :
  plain_name (str name) = true ->
  1 <= d <= 10 ->
  get kwargs "divisor" (VInt 1) = VInt d ->
  0 <= v <= 1000 ->
  returned_integer (roundtrip64 Ms name kwargs v) = Some v.
Proof.
  intros Hn Hd Hdiv Hv.
  rewrite (roundtrip64_ms_divisor name kwargs _ v Hdiv).
  apply (exact_at_spec Ms name _ v Hn).
  pose proof ms_divisors_checked as Hall.
  rewrite forallb_forall in Hall.
  apply (holds_between_spec 0 1000 _ v); [| assumption].
  apply Hall. apply in_count_up. lia.
Qed.

(** X19: for a parameter name made of letters, digits and underscores, the
    [percentage] formatter, on doubles, shows different texts for
    different raw values from -5000 to 5000. *)
Theorem percentage_display_is_injective
  (name : value) (kwargs : dict) (v v' : Z) :
  plain_name (str name) = true ->
  -5000 <= v <= 5000 -> -5000 <= v' <= 5000 ->
  forward64 (formatter_fragment Percentage name kwargs) v
  = forward64 (formatter_fragment Percentage name kwargs) v' ->
  v = v'.
Proof.
  intros Hn Hv Hv' Hsame.
  pose proof (exact_at_spec Percentage name [] v Hn
                (holds_between_spec _ _ _ v percentage_checked Hv)) as R.
  pose proof (exact_at_spec Percentage name [] v' Hn
                (holds_between_spec _ _ _ v' percentage_checked Hv')) as R'.
  unfold roundtrip64 in R, R'.
  change (formatter_fragment Percentage name [])
    with (formatter_fragment Percentage name kwargs) in R, R'.
  rewrite Hsame, R' in R. now inversion R.
Qed.

Lemma hz_parser_rejects_non_numeric_text_witness :
  generate_parser (VStr "rate") (VStr "hz") []
    = Ok (VStr (print (parser_fragment Hz (VStr "rate") []))) /\
  inverse64 (parser_fragment Hz (VStr "rate") []) "fast" = Some DNull.
Proof.
  apply (hz_parser_rejects_non_numeric_text (VStr "rate") [] "fast"
           (S754_finite false 7205759403792794 (-56))
           (S754_finite false 5629499534213120 (-48)));
    vm_compute; reflexivity.
Defined.

Lemma hz_parser_rejects_out_of_range_witness :
  inverse64 (parser_fragment Hz (VStr "rate") []) "20.01 Hz" = Some DNull.
Proof.
  apply (hz_parser_rejects_out_of_range (VStr "rate") [] "20.01 Hz"
           (S754_finite false 7205759403792794 (-56))
           (S754_finite false 5629499534213120 (-48)));
    [vm_compute; reflexivity | vm_compute; reflexivity |].
  right. vm_compute. reflexivity.
Defined.

Lemma ms_roundtrip_exact_up_to_divisor_ten_witness :
  returned_integer
    (roundtrip64 Ms (VStr "envattack") [("divisor", VInt 7)] 999)
  = Some 999.
Proof.
  apply (ms_roundtrip_exact_up_to_divisor_ten
           (VStr "envattack") [("divisor", VInt 7)] 7 999);
    [reflexivity | lia | reflexivity | lia].
Defined.

Lemma percentage_display_is_injective_witness :
  forward64 (formatter_fragment Percentage (VStr "distortion") []) 250
  = forward64 (formatter_fragment Percentage (VStr "distortion") []) (125 * 2)
  /\ 250 = 125 * 2.
Proof.
  split; [reflexivity |].
  apply (percentage_display_is_injective (VStr "distortion") [] 250 (125 * 2));
    [reflexivity | lia | lia | reflexivity].
Defined.

End DoubleCodecsMore.
